(** * china-citizen-id: the region-table crawler [scripts/crawl.py]

    A shallow embedding of the crawler that downloads the yearly tables of
    administrative-division codes and collects them into one nested
    mapping [year -> code -> name].

    Conventions of the embedding:
    - a Python [str] is a list of Unicode code points ([list Z]);
    - a Python [bytes] is a [list byte];
    - a Python [dict] is a stdpp [gmap] (no statement below depends on the
      insertion order of a dict);
    - an exception is a value of [exn]; a computation that can raise returns
      a [result];
    - the file system, the network and the console are fields of an explicit
      [world] that every effectful function threads through. *)

From Stdlib Require Import ZArith Lia DecimalString.
From stdpp Require Import base option list strings gmap.

Local Open Scope Z_scope.

(** ** Python values *)

Abbreviation str := (list Z).
Abbreviation bytes := (list Byte.byte).

(** An ASCII literal of the source, as a [str]. *)
Definition py (s : string) : str :=
  (λ a, Z.of_N (Ascii.N_of_ascii a)) <$> String.list_ascii_of_string s.

(** [str(n)] for an [int]. *)
Definition str_of_int (n : Z) : str := py (NilZero.string_of_int (Z.to_int n)).

(** The exceptions of a run.  [requests.get] raises [MissingSchema] or
    [InvalidURL] for a URL it refuses, and [ConnectionError], [Timeout] or
    [TooManyRedirects] once it talks to the server; a file operation raises
    [FileNotFoundError], [PermissionError] or another [OSError]; writing
    text raises [UnicodeEncodeError] when the encoding of the file cannot
    represent it. *)
Inductive exn :=
  | ConnectionError
  | Timeout
  | TooManyRedirects
  | MissingSchema
  | InvalidURL
  | HTTPError (status : Z)
  | UnicodeDecodeError
  | UnicodeEncodeError
  | IndexError
  | KeyError
  | FileNotFoundError
  | PermissionError
  | OSError (errno : Z).

Inductive result (A : Type) :=
  | Ok (a : A)
  | Raise (e : exn).
Arguments Ok {A} a.
Arguments Raise {A} e.

#[global] Instance result_ret : MRet result := λ A a, Ok a.
#[global] Instance result_bind : MBind result := λ A B k r,
  match r with
  | Ok a => k a
  | Raise e => Raise e
  end.

(** [l[i]] for a constant non-negative index. *)
Definition getitem {A} (l : list A) (i : nat) : result A :=
  match l !! i with
  | Some x => Ok x
  | None => Raise IndexError
  end.

(** [d[k]] on a dict. *)
Definition dict_getitem `{Countable K} {V} (d : gmap K V) (k : K) : result V :=
  match d !! k with
  | Some v => Ok v
  | None => Raise KeyError
  end.

(** ** Character classes of the interpreter

    On [str] patterns [\d] is "any Unicode decimal digit" (general category
    Nd) and [str.strip()] removes the characters for which [str.isspace()]
    holds.  Both tables are those of Unicode 14.0 (CPython 3.11), as
    inclusive ranges of code points. *)

Definition in_ranges (rs : list (Z * Z)) (c : Z) : bool :=
  existsb (λ r, (r.1 <=? c) && (c <=? r.2)) rs.

Definition Nd_ranges : list (Z * Z) :=
  [ (0x30, 0x39); (0x660, 0x669); (0x6f0, 0x6f9); (0x7c0, 0x7c9);
    (0x966, 0x96f); (0x9e6, 0x9ef); (0xa66, 0xa6f); (0xae6, 0xaef);
    (0xb66, 0xb6f); (0xbe6, 0xbef); (0xc66, 0xc6f); (0xce6, 0xcef);
    (0xd66, 0xd6f); (0xde6, 0xdef); (0xe50, 0xe59); (0xed0, 0xed9);
    (0xf20, 0xf29); (0x1040, 0x1049); (0x1090, 0x1099); (0x17e0, 0x17e9);
    (0x1810, 0x1819); (0x1946, 0x194f); (0x19d0, 0x19d9); (0x1a80, 0x1a89);
    (0x1a90, 0x1a99); (0x1b50, 0x1b59); (0x1bb0, 0x1bb9); (0x1c40, 0x1c49);
    (0x1c50, 0x1c59); (0xa620, 0xa629); (0xa8d0, 0xa8d9); (0xa900, 0xa909);
    (0xa9d0, 0xa9d9); (0xa9f0, 0xa9f9); (0xaa50, 0xaa59); (0xabf0, 0xabf9);
    (0xff10, 0xff19); (0x104a0, 0x104a9); (0x10d30, 0x10d39);
    (0x11066, 0x1106f); (0x110f0, 0x110f9); (0x11136, 0x1113f);
    (0x111d0, 0x111d9); (0x112f0, 0x112f9); (0x11450, 0x11459);
    (0x114d0, 0x114d9); (0x11650, 0x11659); (0x116c0, 0x116c9);
    (0x11730, 0x11739); (0x118e0, 0x118e9); (0x11950, 0x11959);
    (0x11c50, 0x11c59); (0x11d50, 0x11d59); (0x11da0, 0x11da9);
    (0x16a60, 0x16a69); (0x16ac0, 0x16ac9); (0x16b50, 0x16b59);
    (0x1d7ce, 0x1d7ff); (0x1e140, 0x1e149); (0x1e2f0, 0x1e2f9);
    (0x1e950, 0x1e959); (0x1fbf0, 0x1fbf9) ].

Definition space_ranges : list (Z * Z) :=
  [ (0x9, 0xd); (0x1c, 0x20); (0x85, 0x85); (0xa0, 0xa0); (0x1680, 0x1680);
    (0x2000, 0x200a); (0x2028, 0x2029); (0x202f, 0x202f); (0x205f, 0x205f);
    (0x3000, 0x3000) ].

Definition ranges_disjoint (rs1 rs2 : list (Z * Z)) : bool :=
  forallb (λ r1, forallb (λ r2, (r1.2 <? r2.1) || (r2.2 <? r1.1)) rs2) rs1.

(** [\d] *)
Definition is_decimal (c : Z) : bool := in_ranges Nd_ranges c.

(** [str.isspace] on one character *)
Definition isspace (c : Z) : bool := in_ranges space_ranges c.

Fixpoint drop_while {A} (p : A → bool) (l : list A) : list A :=
  match l with
  | [] => []
  | x :: l' => if p x then drop_while p l' else l
  end.

Definition lstrip (s : str) : str := drop_while isspace s.
Definition rstrip (s : str) : str :=
  reverse (drop_while isspace (reverse s)).

(** [s.strip()] *)
Definition strip (s : str) : str := rstrip (lstrip s).

(** [re.match(r"\d{6}", s)]: the match is anchored at the start of [s];
    the result is the matched text, or [None]. *)
Definition re_match_d6 (s : str) : option str :=
  let g := take 6 s in
  if (length g =? 6)%nat && forallb is_decimal g then Some g else None.

(** ** [bytes.decode(errors=...)], UTF-8

    A well-formed sequence is decoded the way CPython does it (shortest
    form only, no surrogates, nothing above U+10FFFF).  At an ill-formed
    sequence the strict handler raises; the "ignore" handler drops the
    offending lead byte and resumes at the next byte (the bytes of a broken
    sequence that follow its lead byte are continuation bytes, which are
    dropped one by one as invalid start bytes). *)

Inductive error_handler := Strict | Ignore.

Definition byte_val (b : Byte.byte) : Z := Z.of_N (Byte.to_N b).

Definition is_cont (b : Byte.byte) : bool :=
  (0x80 <=? byte_val b) && (byte_val b <=? 0xBF).

Definition lead2 (b0 : Byte.byte) : bool :=
  (0xC2 <=? byte_val b0) && (byte_val b0 <=? 0xDF).

Definition lead3 (b0 b1 : Byte.byte) : bool :=
  let x := byte_val b0 in
  let y := byte_val b1 in
  (0xE0 <=? x) && (x <=? 0xEF) && is_cont b1 &&
  (if x =? 0xE0 then 0xA0 <=? y else if x =? 0xED then y <=? 0x9F else true).

Definition lead4 (b0 b1 : Byte.byte) : bool :=
  let x := byte_val b0 in
  let y := byte_val b1 in
  (0xF0 <=? x) && (x <=? 0xF4) && is_cont b1 &&
  (if x =? 0xF0 then 0x90 <=? y else if x =? 0xF4 then y <=? 0x8F else true).

Definition cp2 (b0 b1 : Byte.byte) : Z :=
  byte_val b0 * 64 + byte_val b1 - (0xC0 * 64 + 0x80).

Definition cp3 (b0 b1 b2 : Byte.byte) : Z :=
  byte_val b0 * 4096 + byte_val b1 * 64 + byte_val b2
  - (0xE0 * 4096 + 0x80 * 64 + 0x80).

Definition cp4 (b0 b1 b2 b3 : Byte.byte) : Z :=
  byte_val b0 * 262144 + byte_val b1 * 4096 + byte_val b2 * 64 + byte_val b3
  - (0xF0 * 262144 + 0x80 * 4096 + 0x80 * 64 + 0x80).

Definition emit (c : Z) (r : result str) : result str :=
  s ← r; Ok (c :: s).

Fixpoint decode (errors : error_handler) (bs : bytes) : result str :=
  match bs with
  | [] => Ok []
  | b0 :: rest =>
      let bad :=
        match errors with
        | Strict => Raise UnicodeDecodeError
        | Ignore => decode errors rest
        end in
      if byte_val b0 <? 0x80 then emit (byte_val b0) (decode errors rest)
      else
        match rest with
        | [] => bad
        | b1 :: rest1 =>
            if lead2 b0 && is_cont b1 then
              emit (cp2 b0 b1) (decode errors rest1)
            else
              match rest1 with
              | [] => bad
              | b2 :: rest2 =>
                  if lead3 b0 b1 && is_cont b2 then
                    emit (cp3 b0 b1 b2) (decode errors rest2)
                  else
                    match rest2 with
                    | [] => bad
                    | b3 :: rest3 =>
                        if lead4 b0 b1 && is_cont b2 && is_cont b3 then
                          emit (cp4 b0 b1 b2 b3) (decode errors rest3)
                        else bad
                    end
              end
        end
  end.

(** A Unicode scalar value: what a decoded [str] is made of. *)
Definition scalar (c : Z) : Prop :=
  0 <= c <= 0x10FFFF ∧ ¬ (0xD800 <= c <= 0xDFFF).

(** ** The parsed document (BeautifulSoup) *)

#[warnings="-register-all"]
Inductive node :=
  | NavigableString (s : str)
  | Comment (s : str)
  | Tag (name : str) (contents : list node).

(** [tag.text]: the strings below the tag, concatenated in document order
    (comments are not part of it). *)
Fixpoint text (n : node) : str :=
  match n with
  | NavigableString s => s
  | Comment _ => []
  | Tag _ cs => concat (map text cs)
  end.

(** All nodes strictly below [n], in document order. *)
Fixpoint descendants (n : node) : list node :=
  match n with
  | Tag _ cs => flat_map (λ c, c :: descendants c) cs
  | _ => []
  end.

Definition is_tag (name : str) (n : node) : bool :=
  match n with
  | Tag nm _ => bool_decide (nm = name)
  | _ => false
  end.

(** [tag.find_all(name)] *)
Definition find_all (name : str) (n : node) : list node :=
  List.filter (is_tag name) (descendants n).

(** ** The world: cache files, web server, console *)

(** What [requests.get(url)] comes to: it raises [e] (before anything is
    sent, as [MissingSchema] for a URL without scheme, or later, as
    [ConnectionError], [Timeout], [TooManyRedirects]), or it returns a
    response. *)
Inductive http_result :=
  | NoResponse (e : exn)
  | Response (status_code : Z) (content : bytes).

(** What the operating system makes of writing [data] to a path: the file
    is written in full; or it cannot be opened (a missing directory, no
    permission) and nothing changes; or it is opened, which creates or
    truncates it, and the write stops with an error after the bytes
    [kept]. *)
Inductive write_outcome :=
  | Written
  | OpenFails (e : exn)
  | WriteFails (e : exn) (kept : bytes).

(** The calls a run makes: [time.sleep(secs)], [print(msg)],
    [requests.get(url)] (the call, whatever comes of it), and the opening of
    a file for writing, with the bytes left in it. *)
Inductive event :=
  | Sleep (secs : Z)
  | Print (msg : str)
  | Get (url : str)
  | WriteFile (path : str) (data : bytes).

Record world := World {
  fs : gmap str bytes;        (* regular files, by path *)
  http : str → http_result;   (* what [requests.get] comes to for a URL *)
  disk : str → bytes → write_outcome;   (* what a write comes to *)
  trace : list event          (* what the run has done so far, oldest first *)
}.

Definition io (A : Type) : Type := world → result A * world.

#[global] Instance io_ret : MRet io := λ A a w, (Ok a, w).
#[global] Instance io_bind : MBind io := λ A B k m w,
  match m w with
  | (Ok a, w') => k a w'
  | (Raise e, w') => (Raise e, w')
  end.

Definition lift {A} (r : result A) : io A := λ w, (r, w).

Definition log (e : event) (w : world) : world :=
  World (fs w) (http w) (disk w) (trace w ++ [e]).

Definition sleep (secs : Z) : io unit := λ w, (Ok (), log (Sleep secs) w).
Definition print (msg : str) : io unit := λ w, (Ok (), log (Print msg) w).

(** [requests.get(url)] *)
Definition requests_get (url : str) : io (Z * bytes) := λ w,
  let w' := log (Get url) w in
  match http w url with
  | NoResponse e => (Raise e, w')
  | Response st body => (Ok (st, body), w')
  end.

(** [response.raise_for_status()] *)
Definition raise_for_status (response : Z * bytes) : io unit :=
  let st := response.1 in
  if (400 <=? st) && (st <? 600) then lift (Raise (HTTPError st)) else mret ().

Definition path_exists (p : str) : io bool := λ w,
  (Ok (bool_decide (is_Some (fs w !! p))), w).

(** Opening [p] for writing and writing [data]. *)
Definition write_file (p : str) (data : bytes) : io unit := λ w,
  let put kept :=
    World (<[p := kept]> (fs w)) (http w) (disk w)
      (trace w ++ [WriteFile p kept]) in
  match disk w p data with
  | Written => (Ok (), put data)
  | OpenFails e => (Raise e, w)
  | WriteFails e kept => (Raise e, put kept)
  end.

(** [path.write_bytes(data)] *)
Definition write_bytes (p : str) (data : bytes) : io unit := write_file p data.

Definition read_bytes (p : str) : io bytes := λ w,
  match fs w !! p with
  | Some data => (Ok data, w)
  | None => (Raise FileNotFoundError, w)
  end.

(** [dir / seg] of pathlib: an absolute right operand replaces the left. *)
Definition joinpath (dir seg : str) : str :=
  if bool_decide (head seg = Some 0x2F) then seg else dir ++ py "/" ++ seg.

Definition URL_CACHE_DIR : str := py "data/url_cache".

Definition cache_path (name : str) : str :=
  joinpath URL_CACHE_DIR (name ++ py ".bin").

Definition get_text (name url : str) : io str :=
  let cache_path := cache_path name in
  cached ← path_exists cache_path;
  (if negb cached then
     sleep 1;;
     print (py "Downloading " ++ name ++ py ": " ++ url);;
     response ← requests_get url;
     raise_for_status response;;
     write_bytes cache_path response.2
   else mret ());;
  data ← read_bytes cache_path;
  lift (decode Ignore data).

(** ** The table of years *)

Definition URL_INDEX : list (Z * str) :=
  [ (2023, py "https://www.mca.gov.cn/mzsj/xzqh/2023/202301xzqh.html");
    (2022, py "https://www.mca.gov.cn/mzsj/xzqh/2022/202201xzqh.html");
    (2021, py "https://www.mca.gov.cn/mzsj/xzqh/2021/20211201.html");
    (2020, py "https://www.mca.gov.cn/mzsj/xzqh/2020/20201201.html");
    (2019, py "https://www.mca.gov.cn/mzsj/xzqh/1980/2019/202002281436.html");
    (2018, py "https://www.mca.gov.cn/mzsj/xzqh/1980/201903/201903011447.html");
    (2017, py "https://www.mca.gov.cn/mzsj/xzqh/1980/201803/201803131454.html");
    (2016, py "https://www.mca.gov.cn/mzsj/xzqh/1980/201705/201705311652.html");
    (2015, py "https://www.mca.gov.cn/mzsj/tjbz/a/2015/201706011127.html");
    (2014, py "https://www.mca.gov.cn/images2/cws/201502/20150225163817214.html");
    (2013, py "https://www.mca.gov.cn/images2/cws/201404/20140404125552372.htm");
    (2012, py "https://www.mca.gov.cn/mzsj/tjbz/a/201713/201707271556.html");
    (2011, py "https://www.mca.gov.cn/mzsj/tjbz/a/201713/201707271552.html");
    (2010, py "https://www.mca.gov.cn/mzsj/tjbz/a/201713/201708220946.html");
    (2009, py "https://www.mca.gov.cn/mzsj/tjbz/a/201713/201708220943.html");
    (2008, py "https://www.mca.gov.cn/mzsj/tjbz/a/201713/201708220941.html");
    (2007, py "https://www.mca.gov.cn/mzsj/tjbz/a/201713/201708220939.html");
    (2006, py "https://www.mca.gov.cn/mzsj/tjbz/a/201713/201708220936.html");
    (2005, py "https://www.mca.gov.cn/mzsj/tjbz/a/201713/201708220935.html");
    (2004, py "https://www.mca.gov.cn/mzsj/tjbz/a/201713/201708220930.html");
    (2003, py "https://www.mca.gov.cn/mzsj/tjbz/a/201713/201708220928.html");
    (2002, py "https://www.mca.gov.cn/mzsj/tjbz/a/201713/201708220927.html");
    (2001, py "https://www.mca.gov.cn/mzsj/tjbz/a/201713/201708220925.html");
    (2000, py "https://www.mca.gov.cn/mzsj/tjbz/a/201713/201708220923.html");
    (1999, py "https://www.mca.gov.cn/mzsj/tjbz/a/201713/201708220921.html");
    (1998, py "https://www.mca.gov.cn/mzsj/tjbz/a/201713/201708220918.html");
    (1997, py "https://www.mca.gov.cn/mzsj/tjbz/a/201713/201708220916.html");
    (1996, py "https://www.mca.gov.cn/mzsj/tjbz/a/201713/201708220914.html");
    (1995, py "https://www.mca.gov.cn/mzsj/tjbz/a/201713/201708220913.html");
    (1994, py "https://www.mca.gov.cn/mzsj/tjbz/a/201713/201708220911.html");
    (1993, py "https://www.mca.gov.cn/mzsj/tjbz/a/201713/201708041023.html");
    (1992, py "https://www.mca.gov.cn/mzsj/tjbz/a/201713/201708220910.html");
    (1991, py "https://www.mca.gov.cn/mzsj/tjbz/a/201713/201708041020.html");
    (1990, py "https://www.mca.gov.cn/mzsj/tjbz/a/201713/201708041018.html");
    (1989, py "https://www.mca.gov.cn/mzsj/tjbz/a/201713/201708041017.html");
    (1988, py "https://www.mca.gov.cn/mzsj/tjbz/a/201713/201708220903.html");
    (1987, py "https://www.mca.gov.cn/mzsj/xzqh/1980/1980/201911180950.html");
    (1986, py "https://www.mca.gov.cn/mzsj/tjbz/a/201713/201708220859.html");
    (1985, py "https://www.mca.gov.cn/mzsj/tjbz/a/201713/201708220858.html");
    (1984, py "https://www.mca.gov.cn/mzsj/tjbz/a/201713/201708220856.html");
    (1983, py "https://www.mca.gov.cn/mzsj/tjbz/a/201713/201708160821.html");
    (1982, py "https://www.mca.gov.cn/mzsj/xzqh/1980/1980/201911180942.html");
    (1981, py "https://www.mca.gov.cn/mzsj/tjbz/a/201713/201708041004.html");
    (1980, py "https://www.mca.gov.cn/mzsj/tjbz/a/201713/201708040959.html") ].

(** ** The extractor: the rows of one page *)

(** The three statements that turn the document into [tr_list]. *)
Definition table_rows (soup : node) : list (list node) :=
  let tr_list := find_all (py "tr") soup in
  let tr_list :=
    map (λ tr, filter (λ td, text td ≠ []) (find_all (py "td") tr)) tr_list in
  filter (λ tr : list node, (0 < length tr)%nat) tr_list.

(** The body of [for tr in tr_list], up to the assignment: [None] when the
    row is skipped by [continue], the pair [(code, name)] otherwise. *)
Definition row_entry (tr : list node) : result (option (str * str)) :=
  td0 ← getitem tr 0;
  match re_match_d6 (text td0) with
  | None => Ok None
  | Some _ =>
      let code := strip (text td0) in
      td1 ← getitem tr 1;
      let name := strip (text td1) in
      Ok (Some (code, name))
  end.

(** The whole body, with [dataset[year][code] = name]. *)
Definition record_row (year : Z) (tr : list node)
    (dataset : gmap Z (gmap str str)) : result (gmap Z (gmap str str)) :=
  entry ← row_entry tr;
  match entry with
  | None => Ok dataset
  | Some (code, name) =>
      inner ← dict_getitem dataset year;
      Ok (<[year := <[code := name]> inner]> dataset)
  end.

Fixpoint for_rows (year : Z) (tr_list : list (list node))
    (dataset : gmap Z (gmap str str)) : result (gmap Z (gmap str str)) :=
  match tr_list with
  | [] => Ok dataset
  | tr :: rest => d ← record_row year tr dataset; for_rows year rest d
  end.

(** ** The driver *)

Definition OUTPUT : str := py "src/region.json".

Section Driver.

(** The HTML parser, [BeautifulSoup(html, "lxml")], and the serializer,
    [json.dump(dataset, f, ensure_ascii=False, indent=2)] as the bytes a
    complete dump leaves in the file, are library code. *)
Variable BeautifulSoup : str → node.
Variable json_dump : gmap Z (gmap str str) → bytes.

(** The body of [for year, url in URL_INDEX.items()]. *)
Definition process_year (year : Z) (url : str)
    (dataset : gmap Z (gmap str str)) : io (gmap Z (gmap str str)) :=
  print (py "Processing " ++ str_of_int year);;
  let dataset := <[year := ∅]> dataset in
  html ← get_text (str_of_int year) url;
  let soup := BeautifulSoup html in
  lift (for_rows year (table_rows soup) dataset).

Fixpoint for_years (items : list (Z * str))
    (dataset : gmap Z (gmap str str)) : io (gmap Z (gmap str str)) :=
  match items with
  | [] => mret dataset
  | (year, url) :: rest =>
      d ← process_year year url dataset; for_years rest d
  end.

(** [with open("src/region.json", "w") as f: json.dump(dataset, f, ...)]:
    the file is truncated when it is opened, and a dump that stops (the
    encoding of the file cannot represent a name) leaves what it wrote
    before. *)
Definition dump (dataset : gmap Z (gmap str str)) : io () :=
  write_file OUTPUT (json_dump dataset).

Definition main : io () :=
  dataset ← for_years URL_INDEX ∅;
  dump dataset.

End Driver.

(** ** Fixtures *)

Definition td (s : str) : node := Tag (py "td") [NavigableString s].
Definition tr (cells : list node) : node := Tag (py "tr") cells.
Definition page (rows : list node) : node :=
  Tag (py "[document]")
    [Tag (py "html") [Tag (py "body") [Tag (py "table") rows]]].

(* 代码 名称 东城区 某区 *)
Definition s_daima : str := [0x4EE3; 0x7801].
Definition s_mingcheng : str := [0x540D; 0x79F0].
Definition s_dongchengqu : str := [0x4E1C; 0x57CE; 0x533A].
Definition s_mouqu : str := [0x67D0; 0x533A].

Definition fixture_page : node :=
  page [ tr [td s_daima; td s_mingcheng];
         tr [td (py "110101"); td s_dongchengqu] ].

(** ** Vocabulary of the statements *)

(** What one page adds to [dataset[year]]: [for_rows] seen from inside the
    year's own mapping. *)
Fixpoint collect (tr_list : list (list node)) (m : gmap str str)
    : result (gmap str str) :=
  match tr_list with
  | [] => Ok m
  | tr :: rest =>
      entry ← row_entry tr;
      collect rest
        match entry with
        | None => m
        | Some (code, name) => <[code := name]> m
        end
  end.

(** A row of one cell whose text passes the six-digit check. *)
Definition lone_code_row (tr : list node) : bool :=
  match tr with
  | [td0] => bool_decide (is_Some (re_match_d6 (text td0)))
  | _ => false
  end.

(** The texts of the cells of every row, before any filtering. *)
Definition cell_texts (soup : node) : list (list str) :=
  map (λ tr, map text (find_all (py "td") tr)) (find_all (py "tr") soup).


Definition blank_first_row : list node :=
  [td []; td (py " "); td (py "110101"); td s_dongchengqu].

Definition lone_page : node := page [tr [td (py "110101")]].

Definition interleaved_page : node :=
  page [tr [td []; td (py "120101"); td s_mouqu]].

(** The row is recorded, under [code]. *)
Definition yields (code : str) (tr : list node) : bool :=
  match row_entry tr with
  | Ok (Some (c, _)) => bool_decide (c = code)
  | _ => false
  end.

(** The year's mapping holds [name] under [code]. *)
Definition records (year : Z) (code name : str)
    (dataset : gmap Z (gmap str str)) : Prop :=
  ∃ m, dataset !! year = Some m ∧ m !! code = Some name.

(** The world after the pause, the message and the request of a cache
    miss. *)
Definition downloading (name url : str) (w : world) : world :=
  log (Get url)
    (log (Print (py "Downloading " ++ name ++ py ": " ++ url))
       (log (Sleep 1) w)).

(** A write to the output file. *)
Definition is_output_write (e : event) : bool :=
  match e with
  | WriteFile p _ => bool_decide (p = OUTPUT)
  | _ => false
  end.

(** [w'] is reached from [w] without touching the output file: the server
    and the disk are the same, the files of [w] are still there with their contents, and the
    new events hold no write to the output file. *)
Record extends (w w' : world) : Prop := Extends {
  ext_http : http w' = http w;
  ext_disk : disk w' = disk w;
  ext_fs : fs w ⊆ fs w';
  ext_out : fs w' !! OUTPUT = fs w !! OUTPUT;
  ext_trace : ∃ evs, trace w' = trace w ++ evs
                     ∧ Forall (λ e, is_output_write e = false) evs
}.

(** The value of a result that is known to be [Ok]. *)
Definition value_or {A} (dflt : A) (r : result A) : A :=
  match r with
  | Ok a => a
  | Raise _ => dflt
  end.

(** A cache entry for 2023 that is not valid UTF-8, and no network. *)
Definition garbled_world : world :=
  World {[ cache_path (py "2023") :=
             [Byte.xff; Byte.x41; Byte.xe2; Byte.x82; Byte.x42] ]}
        (λ _, NoResponse ConnectionError) (λ _ _, Written) [].

(** Every page is served with status 200 and parses to [fixture_page]. *)
Definition served_world : world :=
  World ∅ (λ _, Response 200 []) (λ _ _, Written) [].
Definition served_run : result (gmap Z (gmap str str)) * world :=
  for_years (λ _, fixture_page) URL_INDEX ∅ served_world.

(** Nothing is cached, every request is answered 404, and an output file of
    an earlier run is in place. *)
Definition stale_world : world :=
  World {[ OUTPUT := [Byte.x7b; Byte.x7d] ]} (λ _, Response 404 [])
        (λ _ _, Written) [].

(** ** Vocabulary of the further properties *)

Definition is_get (e : event) : bool :=
  match e with
  | Get _ => true
  | _ => false
  end.

Definition is_sleep (e : event) : bool :=
  match e with
  | Sleep _ => true
  | _ => false
  end.

Definition is_print (e : event) : bool :=
  match e with
  | Print _ => true
  | _ => false
  end.

(** Nothing is cached and every page is the one letter "A". *)
Definition letter_world : world :=
  World ∅ (λ _, Response 200 [Byte.x41]) (λ _ _, Written) [].

(** A cache entry for 2023 holding the UTF-8 bytes of "东". *)
Definition dong_world : world :=
  World {[ cache_path (py "2023") := [Byte.xe4; Byte.xb8; Byte.x9c] ]}
        (λ _, NoResponse ConnectionError) (λ _ _, Written) [].

(** Every year of the table is cached, with an empty page, and the server
    does not answer. *)
Definition cached_world : world :=
  World (list_to_map
           ((λ item : Z * str, (cache_path (str_of_int item.1), [])) <$> URL_INDEX))
        (λ _, NoResponse ConnectionError) (λ _ _, Written) [].

(** The events [evs] hold as many requests as pauses, at most [n] of them,
    every request goes to one of [urls] and every pause lasts one second. *)
Definition polite (urls : list str) (n : nat) (evs : list event) : Prop :=
  length (List.filter is_get evs) = length (List.filter is_sleep evs)
  ∧ (length (List.filter is_get evs) ≤ n)%nat
  ∧ Forall (λ e, (∀ u, e = Get u → u ∈ urls)
                 ∧ (∀ secs, e = Sleep secs → secs = 1)) evs.

(** ** Vocabulary of the run's failures *)

(** The year's page is fetched and its rows are extracted: from the
    dataset [d] and the world [w] the year ends with [d'] and [w']. *)
Definition year_succeeds (BeautifulSoup : str → node) (year : Z) (url : str)
    (d : gmap Z (gmap str str)) (w : world)
    (d' : gmap Z (gmap str str)) (w' : world) : Prop :=
  ∃ html,
    get_text (str_of_int year) url
      (log (Print (py "Processing " ++ str_of_int year)) w) = (Ok html, w')
    ∧ for_rows year (table_rows (BeautifulSoup html)) (<[year := ∅]> d)
      = Ok d'.

(** Fetching the year's page raises [e], or the page is fetched and
    extracting its rows raises [e]. *)
Definition year_fails (BeautifulSoup : str → node) (year : Z) (url : str)
    (d : gmap Z (gmap str str)) (w : world) (e : exn) (w' : world) : Prop :=
  get_text (str_of_int year) url
    (log (Print (py "Processing " ++ str_of_int year)) w) = (Raise e, w')
  ∨ ∃ html,
      get_text (str_of_int year) url
        (log (Print (py "Processing " ++ str_of_int year)) w) = (Ok html, w')
      ∧ for_rows year (table_rows (BeautifulSoup html)) (<[year := ∅]> d)
        = Raise e.

(** One row whose first cell is empty, whose second cell is one space, and
    whose third cell starts with six digits. *)
Definition blank_first_page : node := page [tr blank_first_row].

(** Every page is served and parsed, but the output file is opened with an
    encoding that cannot represent the names: the dump stops after "{". *)
Definition ascii_locale_world : world :=
  World {[ OUTPUT := [Byte.x7b; Byte.x7d] ]} (λ _, Response 200 [])
        (λ p _, if bool_decide (p = OUTPUT)
                then WriteFails UnicodeEncodeError [Byte.x7b] else Written)
        [].

(** The result is a value, not an exception. *)
Definition is_Ok {A} (r : result A) : bool :=
  match r with
  | Ok _ => true
  | Raise _ => false
  end.

(** * Properties *)

(** ** Characters, [strip] and the pattern *)

Lemma in_ranges_spec rs c :
  in_ranges rs c = true ↔ ∃ r, r ∈ rs ∧ r.1 <= c <= r.2.
Proof.
  unfold in_ranges. rewrite existsb_exists. split.
  - intros (r & Hin & Hr). exists r. rewrite <- list_elem_of_In in Hin.
    split; [done | lia].
  - intros (r & Hin & Hr). exists r. rewrite <- list_elem_of_In.
    split; [done | lia].
Qed.

Lemma isspace_not_decimal c : isspace c = true → is_decimal c = false.
Proof.
  intros Hs. apply not_true_is_false. intros Hd.
  apply in_ranges_spec in Hs as (r1 & Hin1 & Hr1).
  apply in_ranges_spec in Hd as (r2 & Hin2 & Hr2).
  assert (Hdisj : ranges_disjoint space_ranges Nd_ranges = true)
    by (vm_compute; reflexivity).
  unfold ranges_disjoint in Hdisj.
  rewrite forallb_forall in Hdisj.
  apply list_elem_of_In in Hin1. specialize (Hdisj _ Hin1).
  rewrite forallb_forall in Hdisj.
  apply list_elem_of_In in Hin2. specialize (Hdisj _ Hin2).
  lia.
Qed.

Lemma decimal_not_space c : is_decimal c = true → isspace c = false.
Proof.
  intros Hd. destruct (isspace c) eqn:Hs; [|done].
  apply isspace_not_decimal in Hs. congruence.
Qed.

Lemma drop_while_app {A} (p : A → bool) (a b : list A) :
  drop_while p (a ++ b) =
  if forallb p a then drop_while p b else drop_while p a ++ b.
Proof.
  induction a as [|x a IH]; simpl; [done|].
  destruct (p x); simpl; [apply IH | done].
Qed.

Lemma drop_while_keeps {A} (p : A → bool) (l : list A) :
  Forall (λ x, p x = false) l → drop_while p l = l.
Proof. destruct 1 as [|x l Hx _]; simpl; [done | by rewrite Hx]. Qed.

Lemma rstrip_prefix (g t : str) :
  Forall (λ c, isspace c = false) g → ∃ t', rstrip (g ++ t) = g ++ t'.
Proof.
  intros Hg. unfold rstrip. rewrite reverse_app, drop_while_app.
  assert (Hrev : drop_while isspace (reverse g) = reverse g).
  { apply drop_while_keeps. by apply Forall_reverse. }
  destruct (forallb isspace (reverse t)).
  - exists []. by rewrite Hrev, reverse_involutive, app_nil_r.
  - eexists. by rewrite reverse_app, reverse_involutive.
Qed.

Lemma strip_prefix (g t : str) :
  g ≠ [] → Forall (λ c, isspace c = false) g →
  ∃ t', strip (g ++ t) = g ++ t'.
Proof.
  intros Hne Hg. unfold strip, lstrip.
  destruct g as [|c g]; [done|].
  simpl. rewrite (Forall_inv Hg).
  apply (rstrip_prefix (c :: g) t Hg).
Qed.

Lemma re_match_d6_Some s g :
  re_match_d6 s = Some g ↔
  g = take 6 s ∧ length g = 6%nat ∧ Forall (λ c, is_decimal c = true) g.
Proof.
  unfold re_match_d6.
  destruct (length (take 6 s) =? 6)%nat eqn:Hlen; simpl.
  - apply Nat.eqb_eq in Hlen.
    destruct (forallb is_decimal (take 6 s)) eqn:Hall.
    + rewrite forallb_forall in Hall. split.
      * intros [= <-]. split_and!; [done..|].
        apply Forall_forall. intros c Hc. apply Hall.
        by apply list_elem_of_In.
      * by intros (-> & _ & _).
    + split; [done|]. intros (-> & _ & HF).
      assert (forallb is_decimal (take 6 s) = true); [|congruence].
      apply forallb_forall. intros c Hc.
      rewrite Forall_forall in HF. apply HF. by apply list_elem_of_In.
  - apply Nat.eqb_neq in Hlen. split; [done|]. by intros (-> & ? & _).
Qed.

Lemma re_match_d6_app g t :
  length g = 6%nat → Forall (λ c, is_decimal c = true) g →
  re_match_d6 (g ++ t) = Some g.
Proof.
  intros Hlen Hg. apply re_match_d6_Some.
  rewrite take_app_length' by done. done.
Qed.

(** A text that matches keeps matching, with the same digits, once it is
    stripped. *)
Lemma re_match_d6_strip s g :
  re_match_d6 s = Some g → re_match_d6 (strip s) = Some g.
Proof.
  intros Hm. apply re_match_d6_Some in Hm as (Hg & Hlen & Hdec).
  assert (Hs : s = g ++ drop 6 s) by (rewrite Hg; symmetry; apply take_drop).
  destruct (strip_prefix g (drop 6 s)) as [t' Ht'].
  - intros ->. done.
  - eapply Forall_impl; [exact Hdec|]. intros c. apply decimal_not_space.
  - rewrite Hs, Ht'. by apply re_match_d6_app.
Qed.

(** A text that begins with white space does not match. *)
Lemma re_match_d6_space c s :
  isspace c = true → re_match_d6 (c :: s) = None.
Proof.
  intros Hc. destruct (re_match_d6 (c :: s)) as [g|] eqn:Hm; [|done].
  apply re_match_d6_Some in Hm as (Hg & _ & Hdec).
  simpl in Hg. subst g. apply Forall_inv in Hdec.
  apply isspace_not_decimal in Hc. congruence.
Qed.

(** ** Rows *)

Lemma row_entry_cons td0 rest :
  row_entry (td0 :: rest) =
  match re_match_d6 (text td0) with
  | None => Ok None
  | Some _ =>
      match rest with
      | [] => Raise IndexError
      | td1 :: _ => Ok (Some (strip (text td0), strip (text td1)))
      end
  end.
Proof.
  unfold row_entry. simpl.
  destruct (re_match_d6 (text td0)); [|done]. by destruct rest.
Qed.

Lemma row_entry_skip tr td0 :
  tr !! 0%nat = Some td0 →
  row_entry tr = Ok None ↔ re_match_d6 (text td0) = None.
Proof.
  destruct tr as [|x rest]; [done|]. intros [= ->].
  rewrite row_entry_cons.
  destruct (re_match_d6 (text td0)); [|done].
  by destruct rest.
Qed.

Lemma row_entry_code tr code name :
  row_entry tr = Ok (Some (code, name)) → is_Some (re_match_d6 code).
Proof.
  destruct tr as [|td0 rest]; [done|]. rewrite row_entry_cons.
  destruct (re_match_d6 (text td0)) as [g|] eqn:Hm; [|done].
  destruct rest; [done|]. intros [= <- _].
  exists g. by apply re_match_d6_strip.
Qed.

Lemma table_rows_nonempty soup : Forall (λ tr, tr ≠ []) (table_rows soup).
Proof.
  unfold table_rows. apply Forall_forall. intros tr Htr.
  apply list_elem_of_filter in Htr as [Hlen _].
  intros ->. simpl in Hlen. lia.
Qed.

Lemma for_rows_app y a b d :
  for_rows y (a ++ b) d = (d1 ← for_rows y a d; for_rows y b d1).
Proof.
  revert d. induction a as [|tr a IH]; intros d; simpl; [done|].
  destruct (record_row y tr d); simpl; [apply IH | done].
Qed.

Lemma for_rows_collect y rows d m :
  d !! y = Some m →
  for_rows y rows d = (m' ← collect rows m; Ok (<[y := m']> d)).
Proof.
  revert d m. induction rows as [|tr rows IH]; intros d m Hd; simpl.
  - by rewrite insert_id.
  - unfold record_row. destruct (row_entry tr) as [[[code name]|]|e]; simpl.
    + unfold dict_getitem. rewrite Hd. simpl.
      rewrite (IH _ (<[code := name]> m)) by apply lookup_insert_eq.
      destruct (collect rows _); simpl; [|done].
      by rewrite insert_insert_eq.
    + by apply IH.
    + done.
Qed.

Lemma collect_lone rows m :
  Forall (λ tr, tr ≠ []) rows →
  if bool_decide (Exists (λ tr, lone_code_row tr = true) rows)
  then collect rows m = Raise IndexError
  else ∃ m', collect rows m = Ok m'.
Proof.
  intros Hne. revert m. induction Hne as [|tr rows Htr _ IH]; intros m.
  - rewrite bool_decide_eq_false_2; [by eexists|]. by intros ?%Exists_nil.
  - destruct tr as [|td0 rest]; [done|]. simpl collect.
    rewrite row_entry_cons.
    destruct (re_match_d6 (text td0)) as [g|] eqn:Hm;
      [destruct rest as [|td1 rest]|]; simpl.
    + rewrite bool_decide_eq_true_2; [done|]. apply Exists_cons_hd.
      simpl. rewrite Hm. by apply bool_decide_eq_true_2.
    + specialize (IH (<[strip (text td0) := strip (text td1)]> m)).
      case_bool_decide as HE.
      * rewrite bool_decide_eq_true_2; [done|]. by apply Exists_cons_tl.
      * rewrite bool_decide_eq_false_2; [done|].
        intros [Hhd|Htl]%Exists_cons; [done|]. by apply HE.
    + specialize (IH m). case_bool_decide as HE.
      * rewrite bool_decide_eq_true_2; [done|]. by apply Exists_cons_tl.
      * rewrite bool_decide_eq_false_2; [done|].
        intros [Hhd|Htl]%Exists_cons; [|by apply HE].
        destruct rest; simpl in Hhd; [|done].
        rewrite Hm in Hhd. apply bool_decide_eq_true_1 in Hhd.
        by destruct Hhd.
Qed.

Lemma map_text_2 (l : list node) (a b : str) :
  map text l = [a; b] → ∃ x y, l = [x; y] ∧ text x = a ∧ text y = b.
Proof.
  destruct l as [|x [|y [|z l]]]; intros [=]. by exists x, y.
Qed.

Lemma map_text_3 (l : list node) (a b c : str) :
  map text l = [a; b; c] →
  ∃ x y z, l = [x; y; z] ∧ text x = a ∧ text y = b ∧ text z = c.
Proof.
  destruct l as [|x [|y [|z [|u l]]]]; intros [=]. by exists x, y, z.
Qed.




(** C8: once the year's mapping exists, the rows of a page make the loop
    raise [IndexError] exactly when one of them is a single cell that passes
    the six-digit check; without such a row the loop returns. *)
Theorem lone_code_row_raises_IndexError
    (year : Z) (soup : node) (dataset : gmap Z (gmap str str)) :
  is_Some (dataset !! year) →
  (Exists (λ tr, lone_code_row tr = true) (table_rows soup) →
   for_rows year (table_rows soup) dataset = Raise IndexError)
  ∧ (¬ Exists (λ tr, lone_code_row tr = true) (table_rows soup) →
     ∃ d, for_rows year (table_rows soup) dataset = Ok d).
Proof.
  intros [m Hm]. rewrite (for_rows_collect _ _ _ _ Hm).
  pose proof (collect_lone (table_rows soup) m (table_rows_nonempty soup)) as H.
  split; intros HE.
  - rewrite bool_decide_eq_true_2 in H by done. by rewrite H.
  - rewrite bool_decide_eq_false_2 in H by done.
    destruct H as [m' ->]. by eexists.
Qed.

Lemma lone_code_row_raises_IndexError_witness :
  for_rows 2023 (table_rows lone_page) {[ 2023 := ∅ ]} = Raise IndexError.
Proof.
  apply (lone_code_row_raises_IndexError 2023 lone_page {[ 2023 := ∅ ]}).
  - rewrite lookup_singleton_eq. by eexists.
  - apply Exists_cons_hd. reflexivity.
Defined.

Lemma filter_blank_prefix (pre post : list node) (ws : node) :
  Forall (λ cell, text cell = []) pre → text ws ≠ [] →
  filter (λ cell, text cell ≠ []) (pre ++ ws :: post)
  = ws :: filter (λ cell, text cell ≠ []) post.
Proof.
  intros Hpre Hws. rewrite filter_app.
  replace (filter (λ cell, text cell ≠ []) pre) with (@nil node).
  - simpl. by rewrite filter_cons_True.
  - symmetry. induction Hpre as [|x l Hx _ IH]; [done|].
    rewrite filter_cons_False; [done|]. by intros ?.
Qed.

Lemma table_rows_elem (soup row : node) :
  row ∈ find_all (py "tr") soup →
  filter (λ cell, text cell ≠ []) (find_all (py "td") row) ≠ [] →
  filter (λ cell, text cell ≠ []) (find_all (py "td") row) ∈ table_rows soup.
Proof.
  intros Hrow Hne. unfold table_rows. apply list_elem_of_filter. split.
  - destruct (filter _ (find_all (py "td") row)); [done|]. simpl. lia.
  - apply list_elem_of_In.
    apply (in_map (λ tr, filter (λ cell, text cell ≠ []) (find_all (py "td") tr))).
    by apply list_elem_of_In.
Qed.

Lemma table_rows_single (soup row : node) :
  find_all (py "tr") soup = [row] →
  filter (λ cell, text cell ≠ []) (find_all (py "td") row) ≠ [] →
  table_rows soup
  = [filter (λ cell, text cell ≠ []) (find_all (py "td") row)].
Proof.
  intros Hrow Hne. unfold table_rows. rewrite Hrow.
  cbn zeta beta iota delta [map].
  rewrite filter_cons_True, filter_nil; [done|].
  destruct (filter _ (find_all (py "td") row)); [done|]. simpl. lia.
Qed.

(** C9: the rows that the extractor builds keep exactly the cells whose
    text is not the empty string, so a cell of white space only stays in
    its row.  When the cells before it are empty it is the first cell of the
    row that is built, and that row is skipped whatever the cells after it
    hold; a document with this one row gives the year the empty mapping. *)
Theorem blank_first_cell_skips_row (soup row : node)
    (pre post : list node) (ws : node) :
  row ∈ find_all (py "tr") soup →
  find_all (py "td") row = pre ++ ws :: post →
  Forall (λ cell, text cell = []) pre →
  text ws ≠ [] →
  Forall (λ c, isspace c = true) (text ws) →
  ∃ cells,
    cells ∈ table_rows soup
    ∧ (∀ cell, cell ∈ cells ↔
         cell ∈ find_all (py "td") row ∧ text cell ≠ [])
    ∧ cells !! 0%nat = Some ws
    ∧ row_entry cells = Ok None
    ∧ (find_all (py "tr") soup = [row] →
       ∀ year dataset,
         for_rows year (table_rows soup) (<[year := ∅]> dataset)
         = Ok (<[year := ∅]> dataset)).
Proof.
  intros Hrow Htd Hpre Hne Hws.
  pose proof (filter_blank_prefix pre post ws Hpre Hne) as Hcells.
  rewrite <- Htd in Hcells.
  assert (Hnil : filter (λ cell, text cell ≠ []) (find_all (py "td") row) ≠ [])
    by (by rewrite Hcells).
  assert (Hskip : row_entry
            (filter (λ cell, text cell ≠ []) (find_all (py "td") row))
          = Ok None).
  { apply (row_entry_skip _ ws); [by rewrite Hcells|].
    destruct (text ws) as [|c s]; [done|].
    apply re_match_d6_space. by apply Forall_inv in Hws. }
  exists (filter (λ cell, text cell ≠ []) (find_all (py "td") row)).
  split_and!.
  - by apply table_rows_elem.
  - intros cell. rewrite list_elem_of_filter. tauto.
  - by rewrite Hcells.
  - done.
  - intros Hone year dataset.
    rewrite (table_rows_single soup row Hone Hnil). simpl.
    unfold record_row. by rewrite Hskip.
Qed.

Lemma blank_first_cell_skips_row_witness :
  ∃ cells,
    cells ∈ table_rows blank_first_page
    ∧ (∀ cell, cell ∈ cells ↔
         cell ∈ find_all (py "td") (tr blank_first_row) ∧ text cell ≠ [])
    ∧ cells !! 0%nat = Some (td (py " "))
    ∧ row_entry cells = Ok None
    ∧ (find_all (py "tr") blank_first_page = [tr blank_first_row] →
       ∀ year dataset,
         for_rows year (table_rows blank_first_page) (<[year := ∅]> dataset)
         = Ok (<[year := ∅]> dataset)).
Proof.
  apply (blank_first_cell_skips_row blank_first_page (tr blank_first_row)
           [td []] [td (py "110101"); td s_dongchengqu] (td (py " "))).
  - apply list_elem_of_In. left. reflexivity.
  - reflexivity.
  - repeat constructor.
  - vm_compute. discriminate.
  - repeat constructor.
Defined.

Lemma strip_plain (s : str) :
  Forall (λ c, isspace c = false) s → strip s = s.
Proof.
  intros Hs. destruct s as [|c s]; [done|].
  destruct (strip_prefix (c :: s) [] ltac:(done) Hs) as [t' Ht'].
  rewrite app_nil_r in Ht'.
  assert (Hlen : (length (strip (c :: s)) ≤ length (c :: s))%nat).
  { unfold strip, rstrip, lstrip. rewrite length_reverse.
    assert (Hdw : ∀ l : str, (length (drop_while isspace l) ≤ length l)%nat).
    { induction l as [|x l IH]; simpl; [done|]. destruct (isspace x); simpl; lia. }
    etrans; [apply Hdw|]. rewrite length_reverse. apply Hdw. }
  rewrite Ht', length_app in Hlen.
  destruct t'; simpl in Hlen; [|lia]. by rewrite Ht', app_nil_r.
Qed.

(** C3: a document whose rows are a header row with the cells "代码" and
    "名称" and a data row with the cells "110101" and "东城区" gives the year
    exactly the mapping {"110101": "东城区"}: the header row is skipped and the
    data row is recorded. *)
Theorem header_and_data_row (soup : node) (year : Z)
    (dataset : gmap Z (gmap str str)) :
  cell_texts soup = [[s_daima; s_mingcheng]; [py "110101"; s_dongchengqu]] →
  ∃ header data,
    table_rows soup = [header; data]
    ∧ row_entry header = Ok None
    ∧ row_entry data = Ok (Some (py "110101", s_dongchengqu))
    ∧ for_rows year (table_rows soup) (<[year := ∅]> dataset)
      = Ok (<[year := {[ py "110101" := s_dongchengqu ]}]> dataset).
Proof.
  unfold cell_texts, table_rows. intros H.
  destruct (find_all (py "tr") soup) as [|r1 [|r2 [|r3 l]]]; try done.
  cbn zeta beta iota delta [map] in H |- *. injection H as H1 H2.
  apply map_text_2 in H1 as (a & b & -> & Ha & Hb).
  apply map_text_2 in H2 as (c & d & -> & Hc & Hd).
  rewrite !(filter_cons_True (λ cell, text cell ≠ [])), !filter_nil
    by (rewrite ?Ha, ?Hb, ?Hc, ?Hd; done).
  rewrite !(filter_cons_True (λ tr : list node, (0 < length tr)%nat)), filter_nil
    by (simpl; lia).
  assert (E1 : row_entry [a; b] = Ok None).
  { rewrite row_entry_cons, Ha. reflexivity. }
  assert (E2 : row_entry [c; d] = Ok (Some (py "110101", s_dongchengqu))).
  { rewrite row_entry_cons, Hc, Hd.
    rewrite !strip_plain by (by vm_compute; repeat constructor). reflexivity. }
  exists [a; b], [c; d]. split_and!; [done..|].
  simpl for_rows. unfold record_row. rewrite E1, E2. simpl.
  unfold dict_getitem. rewrite lookup_insert_eq. simpl.
  by rewrite insert_insert_eq, insert_empty.
Qed.

Lemma header_and_data_row_witness :
  for_rows 2023 (table_rows fixture_page) (<[2023 := ∅]> ∅)
  = Ok (<[2023 := {[ py "110101" := s_dongchengqu ]}]> ∅).
Proof.
  destruct (header_and_data_row fixture_page 2023 ∅) as (h & d & _ & _ & _ & H).
  - reflexivity.
  - exact H.
Defined.

(** C4: in a row whose cells read "", "120101", "某区" the empty cell is
    removed first, the six-digit check reads "120101", and the row records
    "120101" with the name "某区". *)
Theorem empty_cell_dropped_before_check (soup : node) (year : Z)
    (dataset : gmap Z (gmap str str)) :
  cell_texts soup = [[[]; py "120101"; s_mouqu]] →
  ∃ td0 td1,
    table_rows soup = [[td0; td1]]
    ∧ text td0 = py "120101"
    ∧ re_match_d6 (text td0) = Some (py "120101")
    ∧ row_entry [td0; td1] = Ok (Some (py "120101", s_mouqu))
    ∧ for_rows year (table_rows soup) (<[year := ∅]> dataset)
      = Ok (<[year := {[ py "120101" := s_mouqu ]}]> dataset).
Proof.
  unfold cell_texts, table_rows. intros H.
  destruct (find_all (py "tr") soup) as [|r1 [|r2 l]]; try done.
  cbn zeta beta iota delta [map] in H |- *. injection H as H1.
  apply map_text_3 in H1 as (e & a & b & -> & He & Ha & Hb).
  rewrite (filter_cons_False (λ cell, text cell ≠ [])) by (rewrite He; by intros ?).
  rewrite !(filter_cons_True (λ cell, text cell ≠ [])), !filter_nil
    by (rewrite ?Ha, ?Hb; done).
  rewrite !(filter_cons_True (λ tr : list node, (0 < length tr)%nat)), filter_nil
    by (simpl; lia).
  assert (E : row_entry [a; b] = Ok (Some (py "120101", s_mouqu))).
  { rewrite row_entry_cons, Ha, Hb.
    rewrite !strip_plain by (by vm_compute; repeat constructor). reflexivity. }
  exists a, b. split_and!; [done|done|by rewrite Ha|done|].
  simpl for_rows. unfold record_row. rewrite E. simpl.
  unfold dict_getitem. rewrite lookup_insert_eq. simpl.
  by rewrite insert_insert_eq, insert_empty.
Qed.

Lemma empty_cell_dropped_before_check_witness :
  for_rows 2023 (table_rows interleaved_page) (<[2023 := ∅]> ∅)
  = Ok (<[2023 := {[ py "120101" := s_mouqu ]}]> ∅).
Proof.
  destruct (empty_cell_dropped_before_check interleaved_page 2023 ∅)
    as (a & b & _ & _ & _ & _ & H).
  - reflexivity.
  - exact H.
Defined.

(** ** Last write wins *)

Lemma yields_true code tr :
  yields code tr = true ↔ ∃ name, row_entry tr = Ok (Some (code, name)).
Proof.
  unfold yields. destruct (row_entry tr) as [[[c n]|]|e].
  - rewrite bool_decide_eq_true. split.
    + intros ->. by exists n.
    + by intros (name & [= -> _]).
  - split; [done|]. by intros (? & ?).
  - split; [done|]. by intros (? & ?).
Qed.

Lemma yields_split code (rows : list (list node)) :
  Forall (λ tr, yields code tr = false) rows
  ∨ ∃ la r lb, rows = la ++ r :: lb ∧ yields code r = true
               ∧ Forall (λ tr, yields code tr = false) lb.
Proof.
  induction rows as [|x rows IH]; [by left|].
  destruct IH as [Hall|(la & r & lb & -> & Hr & Hlb)].
  - destruct (yields code x) eqn:Hx.
    + right. by exists [], x, rows.
    + left. by constructor.
  - right. by exists (x :: la), r, lb.
Qed.

Lemma record_row_records year tr code name d d' :
  row_entry tr = Ok (Some (code, name)) →
  record_row year tr d = Ok d' → records year code name d'.
Proof.
  unfold record_row, dict_getitem. intros ->. simpl.
  destruct (d !! year) as [inner|]; [|done]. simpl. intros [= <-].
  exists (<[code := name]> inner). by rewrite !lookup_insert_eq.
Qed.

Lemma record_row_keeps year tr code name d d' :
  yields code tr = false →
  records year code name d →
  record_row year tr d = Ok d' → records year code name d'.
Proof.
  unfold record_row, dict_getitem, yields. intros Hother (m & Hm & Hc).
  destruct (row_entry tr) as [[[c n]|]|e]; simpl; [| |done].
  - rewrite Hm. simpl. intros [= <-].
    exists (<[c := n]> m). rewrite lookup_insert_eq. split; [done|].
    rewrite lookup_insert_ne; [done|]. intros ->. by apply bool_decide_eq_false in Hother.
  - intros [= <-]. by exists m.
Qed.

Lemma for_rows_keeps year rows code name d d' :
  Forall (λ tr, yields code tr = false) rows →
  records year code name d →
  for_rows year rows d = Ok d' → records year code name d'.
Proof.
  intros Hrows. revert d. induction Hrows as [|tr rows Htr _ IH]; intros d Hd.
  - by intros [= <-].
  - simpl. destruct (record_row year tr d) as [d1|] eqn:H1; [|done]. simpl.
    apply IH. by eapply record_row_keeps.
Qed.

Lemma for_rows_last year pre tr post code name d d' :
  row_entry tr = Ok (Some (code, name)) →
  Forall (λ tr', yields code tr' = false) post →
  for_rows year (pre ++ tr :: post) d = Ok d' →
  records year code name d'.
Proof.
  intros Htr Hpost. rewrite for_rows_app.
  destruct (for_rows year pre d) as [d1|]; [|done]. simpl.
  destruct (record_row year tr d1) as [d2|] eqn:H2; [|done]. simpl.
  eapply for_rows_keeps; [done|]. by eapply record_row_records.
Qed.

(** C5: when two rows of a page that are not skipped give the same code,
    the name the year's mapping holds for the code is the name of the last
    row that gives the code, which is the later of the two rows or a row
    after it; when no row after the later one gives the code again, it is
    the name of the later row. *)
Theorem later_row_wins (year : Z) (l0 l1 l2 : list (list node))
    (r1 r2 : list node) (code n1 n2 : str)
    (dataset dataset' : gmap Z (gmap str str)) :
  row_entry r1 = Ok (Some (code, n1)) →
  row_entry r2 = Ok (Some (code, n2)) →
  for_rows year (l0 ++ r1 :: l1 ++ r2 :: l2) dataset = Ok dataset' →
  ∃ m name,
    dataset' !! year = Some m ∧ m !! code = Some name
    ∧ (Forall (λ tr, yields code tr = false) l2 → name = n2)
    ∧ ∃ la r lb,
        r2 :: l2 = la ++ r :: lb
        ∧ row_entry r = Ok (Some (code, name))
        ∧ Forall (λ tr, yields code tr = false) lb.
Proof.
  intros _ H2 Hrun.
  destruct (yields_split code l2) as [Hall|(la & r & lb & -> & Hr & Hlb)].
  - destruct (for_rows_last year (l0 ++ r1 :: l1) r2 l2 code n2 dataset dataset')
      as (m & Hm & Hc); [done..|by rewrite <- app_assoc|].
    exists m, n2. split_and!; [done..|]. by exists [], r2, l2.
  - apply yields_true in Hr as Hrn. destruct Hrn as (name & Hname).
    destruct (for_rows_last year (l0 ++ r1 :: l1 ++ r2 :: la) r lb code name
                dataset dataset') as (m & Hm & Hc); [done..| |].
    { rewrite <- Hrun. f_equal.
      rewrite <- app_assoc. simpl. by rewrite <- app_assoc. }
    exists m, name. split_and!; [done..| |].
    + intros Hall. apply Forall_app in Hall as [_ Hall].
      apply Forall_inv in Hall. congruence.
    + by exists (r2 :: la), r, lb.
Qed.

Lemma later_row_wins_witness :
  ∃ m name,
    (<[2023 := {[ py "110101" := s_mouqu ]}]> ∅ : gmap Z (gmap str str))
      !! 2023 = Some m
    ∧ m !! py "110101" = Some name
    ∧ (Forall (λ tr, yields (py "110101") tr = false) [] → name = s_mouqu)
    ∧ ∃ la r lb,
        [[td (py "110101"); td s_mouqu]] = la ++ r :: lb
        ∧ row_entry r = Ok (Some (py "110101", name))
        ∧ Forall (λ tr, yields (py "110101") tr = false) lb.
Proof.
  apply (later_row_wins 2023 [] [[td s_daima; td s_mingcheng]] []
           [td (py "110101"); td s_dongchengqu]
           [td (py "110101"); td s_mouqu]
           (py "110101") s_dongchengqu s_mouqu
           {[ 2023 := ∅ ]}).
  - reflexivity.
  - reflexivity.
  - vm_compute. reflexivity.
Defined.

(** ** Decoding *)

Lemma byte_val_range b : 0 <= byte_val b < 256.
Proof.
  unfold byte_val. pose proof (Byte.to_N_bounded b) as H. lia.
Qed.

Lemma decode_cons errors b0 rest :
  decode errors (b0 :: rest) =
  let bad :=
    match errors with
    | Strict => Raise UnicodeDecodeError
    | Ignore => decode errors rest
    end in
  if byte_val b0 <? 0x80 then emit (byte_val b0) (decode errors rest)
  else
    match rest with
    | [] => bad
    | b1 :: rest1 =>
        if lead2 b0 && is_cont b1 then emit (cp2 b0 b1) (decode errors rest1)
        else
          match rest1 with
          | [] => bad
          | b2 :: rest2 =>
              if lead3 b0 b1 && is_cont b2 then
                emit (cp3 b0 b1 b2) (decode errors rest2)
              else
                match rest2 with
                | [] => bad
                | b3 :: rest3 =>
                    if lead4 b0 b1 && is_cont b2 && is_cont b3 then
                      emit (cp4 b0 b1 b2 b3) (decode errors rest3)
                    else bad
                end
          end
    end.
Proof. reflexivity. Qed.

Ltac byte_bounds :=
  repeat match goal with
  | b : Byte.byte |- _ =>
      lazymatch goal with
      | _ : 0 <= byte_val b < 256 |- _ => fail
      | _ => pose proof (byte_val_range b)
      end
  end.

Lemma cp2_scalar b0 b1 : lead2 b0 && is_cont b1 = true → scalar (cp2 b0 b1).
Proof.
  unfold lead2, is_cont, cp2, scalar. intros H. byte_bounds. lia.
Qed.

Lemma cp3_scalar b0 b1 b2 :
  lead3 b0 b1 && is_cont b2 = true → scalar (cp3 b0 b1 b2).
Proof.
  unfold lead3, is_cont, cp3, scalar. cbv zeta. intros H. byte_bounds.
  destruct (byte_val b0 =? 0xE0) eqn:E0;
    [|destruct (byte_val b0 =? 0xED) eqn:E1]; lia.
Qed.

Lemma cp4_scalar b0 b1 b2 b3 :
  lead4 b0 b1 && is_cont b2 && is_cont b3 = true → scalar (cp4 b0 b1 b2 b3).
Proof.
  unfold lead4, is_cont, cp4, scalar. cbv zeta. intros H. byte_bounds.
  destruct (byte_val b0 =? 0xF0) eqn:E0;
    [|destruct (byte_val b0 =? 0xF4) eqn:E1]; lia.
Qed.

Lemma decode_ignore_bounded n (bs : bytes) :
  (length bs ≤ n)%nat → ∃ s, decode Ignore bs = Ok s ∧ Forall scalar s.
Proof.
  revert bs. induction n as [|n IH]; intros bs Hlen.
  { destruct bs; [|simpl in Hlen; lia]. by exists []. }
  destruct bs as [|b0 rest]; [by exists []|].
  simpl in Hlen. rewrite decode_cons. cbv zeta.
  destruct (IH rest) as (sb & Hb & Hsb); [lia|].
  assert (Hemit : ∀ c tl, (length tl ≤ n)%nat → scalar c →
            ∃ s, emit c (decode Ignore tl) = Ok s ∧ Forall scalar s).
  { intros c tl Htl Hc. destruct (IH tl Htl) as (s & -> & Hs).
    exists (c :: s). split; [done|]. by constructor. }
  destruct (byte_val b0 <? 0x80) eqn:E0.
  { apply Hemit; [lia|]. pose proof (byte_val_range b0). unfold scalar. lia. }
  destruct rest as [|b1 rest1]; [by eauto|]. simpl in Hlen.
  destruct (lead2 b0 && is_cont b1) eqn:E2.
  { apply Hemit; [lia|]. by apply cp2_scalar. }
  destruct rest1 as [|b2 rest2]; [by eauto|]. simpl in Hlen.
  destruct (lead3 b0 b1 && is_cont b2) eqn:E3.
  { apply Hemit; [lia|]. by apply cp3_scalar. }
  destruct rest2 as [|b3 rest3]; [by eauto|]. simpl in Hlen.
  destruct (lead4 b0 b1 && is_cont b2 && is_cont b3) eqn:E4.
  { apply Hemit; [lia|]. by apply cp4_scalar. }
  by eauto.
Qed.

Lemma decode_ignore_total (bs : bytes) :
  ∃ s, decode Ignore bs = Ok s ∧ Forall scalar s.
Proof. by apply (decode_ignore_bounded (length bs)). Qed.

(** ** The fetcher *)

Lemma get_text_hit name url w data :
  fs w !! cache_path name = Some data →
  get_text name url w = (decode Ignore data, w).
Proof.
  intros Hc. unfold get_text, mbind, io_bind, path_exists.
  rewrite bool_decide_eq_true_2 by (by eexists). simpl.
  unfold read_bytes, lift. rewrite Hc. by destruct (decode Ignore data).
Qed.

Lemma get_text_miss name url w :
  fs w !! cache_path name = None →
  get_text name url w =
  let w1 := downloading name url w in
  let put kept :=
    World (<[cache_path name := kept]> (fs w)) (http w) (disk w)
      (trace w1 ++ [WriteFile (cache_path name) kept]) in
  match http w url with
  | NoResponse e => (Raise e, w1)
  | Response st body =>
      if (400 <=? st) && (st <? 600) then (Raise (HTTPError st), w1)
      else
        match disk w (cache_path name) body with
        | Written => (decode Ignore body, put body)
        | OpenFails e => (Raise e, w1)
        | WriteFails e kept => (Raise e, put kept)
        end
  end.
Proof.
  intros Hc. unfold get_text, mbind, io_bind, path_exists.
  rewrite bool_decide_eq_false_2 by (rewrite Hc; by intros [? ?]). simpl.
  unfold requests_get. simpl.
  destruct (http w url) as [e|st body]; [done|].
  unfold raise_for_status. simpl.
  destruct ((400 <=? st) && (st <? 600)); [done|]. simpl.
  unfold write_bytes, write_file. simpl.
  destruct (disk w (cache_path name) body) as [|e|e kept]; [|done..].
  unfold read_bytes, lift. simpl. rewrite lookup_insert_eq.
  by destruct (decode Ignore body).
Qed.

(** C6: with a cache entry for the identifier the fetcher returns its
    decoded bytes and leaves the world as it is (no request, no pause, no
    write).  Without one it pauses for one second, prints, and calls
    [requests.get] once; it raises what that call raises, raises
    [HTTPError] when the status is 400 to 599, and otherwise writes the body
    as it came to the cache entry and returns it decoded (when the operating
    system refuses the write, it raises that error instead). *)
Theorem get_text_cases (name url : str) (w : world) :
  match fs w !! cache_path name with
  | Some data =>
      ∃ s, decode Ignore data = Ok s ∧ get_text name url w = (Ok s, w)
  | None =>
      let w1 := downloading name url w in
      let put kept :=
        World (<[cache_path name := kept]> (fs w)) (http w) (disk w)
          (trace w1 ++ [WriteFile (cache_path name) kept]) in
      trace w1 = trace w ++
        [Sleep 1; Print (py "Downloading " ++ name ++ py ": " ++ url); Get url]
      ∧ match http w url with
        | NoResponse e => get_text name url w = (Raise e, w1)
        | Response st body =>
            if (400 <=? st) && (st <? 600)
            then get_text name url w = (Raise (HTTPError st), w1)
            else
              match disk w (cache_path name) body with
              | Written =>
                  ∃ s, decode Ignore body = Ok s
                       ∧ get_text name url w = (Ok s, put body)
              | OpenFails e => get_text name url w = (Raise e, w1)
              | WriteFails e kept => get_text name url w = (Raise e, put kept)
              end
        end
  end.
Proof.
  unfold get_text, mbind, io_bind, path_exists.
  destruct (fs w !! cache_path name) as [data|] eqn:Hc.
  - destruct (decode_ignore_total data) as (s & Hs & _). exists s.
    split; [done|].
    rewrite bool_decide_eq_true_2 by (by eexists). simpl.
    unfold read_bytes, lift. by rewrite Hc, Hs.
  - cbv zeta. split.
    { unfold downloading, log. simpl. by rewrite <- !app_assoc. }
    rewrite bool_decide_eq_false_2 by (by intros [? ?]). simpl.
    unfold requests_get. simpl.
    destruct (http w url) as [e|st body]; [done|].
    unfold raise_for_status. simpl.
    destruct ((400 <=? st) && (st <? 600)); [done|]. simpl.
    unfold write_bytes, write_file. simpl.
    destruct (disk w (cache_path name) body) as [|e|e kept]; [|done..].
    destruct (decode_ignore_total body) as (s & Hs & _). exists s.
    split; [done|].
    unfold read_bytes, lift. simpl. by rewrite lookup_insert_eq, Hs.
Qed.

(** C10: whatever bytes a cache entry holds, decoding them with the
    "ignore" handler gives a string (of Unicode scalar values), and the
    fetcher returns it without touching the world. *)
Theorem cached_entry_always_decodes (name url : str) (w : world)
    (data : bytes) :
  fs w !! cache_path name = Some data →
  ∃ s, decode Ignore data = Ok s ∧ Forall scalar s
       ∧ get_text name url w = (Ok s, w).
Proof.
  intros Hc. destruct (decode_ignore_total data) as (s & Hs & Hsc).
  exists s. split_and!; [done..|].
  by rewrite (get_text_hit name url w data Hc), Hs.
Qed.

Lemma cached_entry_always_decodes_witness :
  decode Strict [Byte.xff; Byte.x41; Byte.xe2; Byte.x82; Byte.x42]
    = Raise UnicodeDecodeError
  ∧ ∃ s, decode Ignore [Byte.xff; Byte.x41; Byte.xe2; Byte.x82; Byte.x42] = Ok s
         ∧ Forall scalar s
         ∧ get_text (py "2023") (py "http://example/") garbled_world
           = (Ok s, garbled_world).
Proof.
  split; [reflexivity|].
  apply (cached_entry_always_decodes (py "2023") (py "http://example/")
           garbled_world).
  vm_compute. reflexivity.
Defined.

(** ** What a run can change *)

Lemma extends_refl w : extends w w.
Proof.
  split; [done..|]. exists []. by rewrite app_nil_r.
Qed.

Lemma extends_trans w1 w2 w3 : extends w1 w2 → extends w2 w3 → extends w1 w3.
Proof.
  intros [H1 D1 F1 O1 (e1 & T1 & Q1)] [H2 D2 F2 O2 (e2 & T2 & Q2)]. split.
  - congruence.
  - congruence.
  - by etrans.
  - congruence.
  - exists (e1 ++ e2). rewrite T2, T1, app_assoc. split; [done|].
    by apply Forall_app.
Qed.

Lemma extends_log e w : is_output_write e = false → extends w (log e w).
Proof.
  intros He. split; [done..|]. exists [e]. split; [done|]. by constructor.
Qed.

Lemma cache_path_head name :
  head (cache_path name) = Some 0x2F ∨ head (cache_path name) = Some 100.
Proof.
  unfold cache_path, joinpath. case_bool_decide as H; [by left|by right].
Qed.

Lemma cache_path_not_output name : cache_path name ≠ OUTPUT.
Proof.
  intros H. destruct (cache_path_head name) as [Hh|Hh];
    rewrite H in Hh; vm_compute in Hh; discriminate.
Qed.

Lemma put_extends name kept w :
  fs w !! cache_path name = None →
  extends w
    (World (<[cache_path name := kept]> (fs w)) (http w) (disk w)
       (trace w ++ [WriteFile (cache_path name) kept])).
Proof.
  intros Hc. split; simpl.
  - done.
  - done.
  - by apply insert_subseteq.
  - rewrite lookup_insert_ne; [done|]. apply cache_path_not_output.
  - eexists. split; [done|]. constructor; [|done]. simpl.
    apply bool_decide_eq_false_2, cache_path_not_output.
Qed.

Lemma get_text_extends name url w r w' :
  get_text name url w = (r, w') → extends w w'.
Proof.
  destruct (fs w !! cache_path name) as [data|] eqn:Hc.
  - rewrite (get_text_hit name url w data Hc). intros [= _ <-].
    apply extends_refl.
  - rewrite (get_text_miss name url w Hc). cbv zeta.
    assert (Hdl : extends w (downloading name url w)).
    { unfold downloading.
      eapply extends_trans; [|by apply extends_log].
      eapply extends_trans; [|by apply extends_log].
      by apply extends_log. }
    destruct (http w url) as [e|st body]; [by intros [= _ <-]|].
    destruct ((400 <=? st) && (st <? 600)); [by intros [= _ <-]|].
    destruct (disk w (cache_path name) body) as [|e|e kept];
      intros [= _ <-]; [|done|];
      (eapply extends_trans; [exact Hdl|];
       by apply (put_extends name _ (downloading name url w))).
Qed.

Lemma get_text_ok name url w s w' :
  get_text name url w = (Ok s, w') →
  ∃ data, fs w' !! cache_path name = Some data ∧ decode Ignore data = Ok s.
Proof.
  destruct (fs w !! cache_path name) as [data|] eqn:Hc.
  - rewrite (get_text_hit name url w data Hc). intros [= Hs <-].
    by exists data.
  - rewrite (get_text_miss name url w Hc). cbv zeta.
    destruct (http w url) as [e|st body]; [done|].
    destruct ((400 <=? st) && (st <? 600)); [done|].
    destruct (disk w (cache_path name) body) as [|e|e kept]; [|done..].
    intros [= Hs <-]. exists body. simpl. by rewrite lookup_insert_eq.
Qed.

Lemma collect_keys rows m0 m :
  collect rows m0 = Ok m →
  ∀ code, is_Some (m !! code) →
    is_Some (m0 !! code) ∨ is_Some (re_match_d6 code).
Proof.
  revert m0. induction rows as [|tr rows IH]; intros m0; simpl.
  - intros [= <-] code. by left.
  - destruct (row_entry tr) as [[[c n]|]|e] eqn:Htr; simpl; [| |done].
    + intros Hrun code Hcode.
      destruct (IH _ Hrun code Hcode) as [Hin|]; [|by right].
      destruct (decide (c = code)) as [<-|Hne].
      * right. by eapply row_entry_code.
      * left. by rewrite lookup_insert_ne in Hin.
    + apply IH.
Qed.

Lemma collect_all_skipped rows m0 :
  Forall (λ tr, row_entry tr = Ok None) rows → collect rows m0 = Ok m0.
Proof.
  induction 1 as [|tr rows Htr _ IH]; simpl; [done|]. by rewrite Htr.
Qed.

Section DriverProperties.

Variable BeautifulSoup : str → node.
Variable json_dump : gmap Z (gmap str str) → bytes.

Lemma process_year_run year url d w r w' :
  process_year BeautifulSoup year url d w = (r, w') →
  extends w w'
  ∧ ∀ d', r = Ok d' →
      ∃ m data html,
        d' = <[year := m]> d
        ∧ fs w' !! cache_path (str_of_int year) = Some data
        ∧ decode Ignore data = Ok html
        ∧ collect (table_rows (BeautifulSoup html)) ∅ = Ok m.
Proof.
  unfold process_year, mbind, io_bind, print.
  destruct (get_text _ url _) as [[html|e] w1] eqn:Hget;
    (assert (Hext : extends w w1);
     [ eapply extends_trans; [|by eapply get_text_extends];
       by apply extends_log |]).
  - unfold lift. intros [= <- <-]. split; [done|].
    + intros d'.
      rewrite (for_rows_collect _ _ _ ∅) by apply lookup_insert_eq.
      destruct (collect _ ∅) as [m|] eqn:Hcol; [|done]. simpl.
      intros [= <-]. apply get_text_ok in Hget as (data & Hdata & Hdec).
      exists m, data, html. by rewrite insert_insert_eq.
  - by intros [= <- <-].
Qed.

Lemma for_years_extends items d w r w' :
  for_years BeautifulSoup items d w = (r, w') → extends w w'.
Proof.
  revert d w. induction items as [|[year url] items IH]; intros d w; simpl.
  - intros [= _ <-]. apply extends_refl.
  - unfold mbind, io_bind.
    destruct (process_year _ year url d w) as [[d1|e] w1] eqn:H1.
    + intros Hrest. apply process_year_run in H1 as [H1 _].
      eapply extends_trans; [exact H1|]. by eapply IH.
    + intros [= _ <-]. by apply process_year_run in H1 as [H1 _].
Qed.

Lemma for_years_ok items d w d' w' :
  NoDup items.*1 →
  for_years BeautifulSoup items d w = (Ok d', w') →
  (∀ y, y ∉ items.*1 → d' !! y = d !! y)
  ∧ ∀ year url, (year, url) ∈ items →
      ∃ m data html,
        d' !! year = Some m
        ∧ fs w' !! cache_path (str_of_int year) = Some data
        ∧ decode Ignore data = Ok html
        ∧ collect (table_rows (BeautifulSoup html)) ∅ = Ok m.
Proof.
  revert d w. induction items as [|[year url] items IH]; intros d w Hnd; simpl.
  - intros [= <- <-]. split; [done|]. intros ?? ?%elem_of_nil. done.
  - apply NoDup_cons in Hnd as [Hfresh Hnd].
    unfold mbind, io_bind.
    destruct (process_year _ year url d w) as [[d1|e] w1] eqn:H1; [|done].
    intros Hrest.
    apply process_year_run in H1 as [_ H1].
    destruct (H1 d1 eq_refl) as (m & data & html & -> & Hdata & Hdec & Hcol).
    pose proof (for_years_extends _ _ _ _ _ Hrest) as Hext.
    destruct (IH _ _ Hnd Hrest) as [Hother Hitems]. split.
    + intros y Hy. apply not_elem_of_cons in Hy as [Hne Hy].
      rewrite (Hother y Hy). by rewrite lookup_insert_ne.
    + intros y u [[= -> ->]|Hin]%elem_of_cons.
      * exists m, data, html. split_and!; [|by eapply lookup_weaken, ext_fs|done..].
        rewrite (Hother year Hfresh). apply lookup_insert_eq.
      * by apply (Hitems y u).
Qed.

End DriverProperties.

(** ** The run as a whole *)

Lemma URL_INDEX_years_distinct : NoDup URL_INDEX.*1.
Proof. apply (bool_decide_unpack _). vm_compute. reflexivity. Qed.

(** C1: when the loop over the table of years has run to its end, the
    dataset has a key for every year of the table; the mapping under it holds
    only codes that match the six-digit pattern, and it is empty when every
    row of the year's page (the page in the year's cache entry) is skipped. *)
Theorem every_year_has_its_mapping (BeautifulSoup : str → node)
    (w w' : world) (dataset : gmap Z (gmap str str)) :
  for_years BeautifulSoup URL_INDEX ∅ w = (Ok dataset, w') →
  ∀ year url, (year, url) ∈ URL_INDEX →
    ∃ m data html,
      dataset !! year = Some m
      ∧ (∀ code, is_Some (m !! code) → is_Some (re_match_d6 code))
      ∧ fs w' !! cache_path (str_of_int year) = Some data
      ∧ decode Ignore data = Ok html
      ∧ (Forall (λ tr, row_entry tr = Ok None)
           (table_rows (BeautifulSoup html)) → m = ∅).
Proof.
  intros Hrun year url Hin.
  destruct (for_years_ok _ _ _ _ _ _ URL_INDEX_years_distinct Hrun)
    as [_ Hitems].
  destruct (Hitems year url Hin) as (m & data & html & Hm & Hdata & Hdec & Hcol).
  exists m, data, html. split_and!; [done| |done|done|].
  - intros code Hcode.
    destruct (collect_keys _ _ _ Hcol code Hcode) as [Hempty|]; [|done].
    rewrite lookup_empty in Hempty. by destruct Hempty.
  - intros Hskipped. rewrite (collect_all_skipped _ ∅ Hskipped) in Hcol.
    by injection Hcol.
Qed.

Lemma ok_pair_eta {A} (p : result A * world) (dflt : A) :
  is_Ok p.1 = true → p = (Ok (value_or dflt p.1), p.2).
Proof. destruct p as [[a|e] w]; simpl; [done|discriminate]. Qed.

Lemma every_year_has_its_mapping_witness :
  ∃ m data html,
    value_or ∅ served_run.1 !! 1980 = Some m
    ∧ (∀ code, is_Some (m !! code) → is_Some (re_match_d6 code))
    ∧ fs served_run.2 !! cache_path (str_of_int 1980) = Some data
    ∧ decode Ignore data = Ok html
    ∧ (Forall (λ tr, row_entry tr = Ok None) (table_rows fixture_page)
       → m = ∅).
Proof.
  apply (every_year_has_its_mapping (λ _, fixture_page) served_world
           served_run.2 (value_or ∅ served_run.1)
           (ok_pair_eta served_run ∅ ltac:(vm_compute; reflexivity))
           1980
           (py "https://www.mca.gov.cn/mzsj/tjbz/a/201713/201708040959.html")).
  apply list_elem_of_In. vm_compute. tauto.
Defined.

Lemma for_years_app BeautifulSoup a b d w :
  for_years BeautifulSoup (a ++ b) d w =
  match for_years BeautifulSoup a d w with
  | (Ok d1, w1) => for_years BeautifulSoup b d1 w1
  | (Raise e, w1) => (Raise e, w1)
  end.
Proof.
  revert d w. induction a as [|[y u] a IH]; intros d w; simpl; [done|].
  unfold mbind, io_bind.
  destruct (process_year BeautifulSoup y u d w) as [[d1|e] w1]; [apply IH|done].
Qed.

Lemma process_year_cases BeautifulSoup year url d w :
  process_year BeautifulSoup year url d w =
  match get_text (str_of_int year) url
          (log (Print (py "Processing " ++ str_of_int year)) w) with
  | (Ok html, w1) =>
      (for_rows year (table_rows (BeautifulSoup html)) (<[year := ∅]> d), w1)
  | (Raise e, w1) => (Raise e, w1)
  end.
Proof.
  unfold process_year, mbind, io_bind, print.
  by destruct (get_text _ url _) as [[html|e] w1].
Qed.

Lemma year_fails_raises BeautifulSoup year url d w e w' :
  year_fails BeautifulSoup year url d w e w' ↔
  process_year BeautifulSoup year url d w = (Raise e, w').
Proof.
  rewrite process_year_cases. unfold year_fails.
  destruct (get_text _ url _) as [[html|e1] w1]; split.
  - intros [[=]|(html' & [= <- <-] & ->)]. done.
  - intros [= Hrows <-]. right. by exists html.
  - intros [[= <- <-]|(html' & [=] & _)]. done.
  - intros [= <- <-]. by left.
Qed.

Lemma year_succeeds_returns BeautifulSoup year url d w d' w' :
  year_succeeds BeautifulSoup year url d w d' w' ↔
  process_year BeautifulSoup year url d w = (Ok d', w').
Proof.
  rewrite process_year_cases. unfold year_succeeds.
  destruct (get_text _ url _) as [[html|e1] w1]; split.
  - intros (html' & [= <- <-] & ->). done.
  - intros [= Hrows <-]. by exists html.
  - intros (html' & [=] & _).
  - done.
Qed.

(** C7: a year whose page cannot be fetched, or whose rows cannot be
    extracted, ends the run with that error, once the years before it have
    succeeded; the output file is then what it was before the run (absent
    if it was absent) and nothing has been written to it.  An error status
    for a year that is not cached is such a failure.  When the loop over the
    years returns, every year of the table has been fetched and extracted,
    nothing has been written to the output file during the loop, and the run
    ends with the one write of the serialized dataset (which the operating
    system can still refuse or cut short).  A run that returns has written
    the serialized dataset, in full, as its last step. *)
Theorem output_written_once_after_all_years (BeautifulSoup : str → node)
    (json_dump : gmap Z (gmap str str) → bytes) (w : world) :
  (∀ pre year url post d1 w1 e w2,
     URL_INDEX = pre ++ (year, url) :: post →
     for_years BeautifulSoup pre ∅ w = (Ok d1, w1) →
     year_fails BeautifulSoup year url d1 w1 e w2 →
     main BeautifulSoup json_dump w = (Raise e, w2)
     ∧ fs w2 !! OUTPUT = fs w !! OUTPUT
     ∧ ∃ evs, trace w2 = trace w ++ evs
              ∧ Forall (λ ev, is_output_write ev = false) evs)
  ∧ (∀ year url d1 w1 st body,
       fs w1 !! cache_path (str_of_int year) = None →
       http w1 url = Response st body →
       400 <= st < 600 →
       year_fails BeautifulSoup year url d1 w1 (HTTPError st)
         (downloading (str_of_int year) url
            (log (Print (py "Processing " ++ str_of_int year)) w1)))
  ∧ (∀ dataset w1,
       for_years BeautifulSoup URL_INDEX ∅ w = (Ok dataset, w1) →
       (∀ pre year url post,
          URL_INDEX = pre ++ (year, url) :: post →
          ∃ d1 wa d2 wb,
            for_years BeautifulSoup pre ∅ w = (Ok d1, wa)
            ∧ year_succeeds BeautifulSoup year url d1 wa d2 wb)
       ∧ (∃ evs, trace w1 = trace w ++ evs
                 ∧ Forall (λ ev, is_output_write ev = false) evs)
       ∧ match disk w1 OUTPUT (json_dump dataset) with
         | Written =>
             main BeautifulSoup json_dump w =
               (Ok (), World (<[OUTPUT := json_dump dataset]> (fs w1))
                         (http w1) (disk w1)
                         (trace w1 ++ [WriteFile OUTPUT (json_dump dataset)]))
         | OpenFails e => main BeautifulSoup json_dump w = (Raise e, w1)
         | WriteFails e kept =>
             main BeautifulSoup json_dump w =
               (Raise e, World (<[OUTPUT := kept]> (fs w1)) (http w1) (disk w1)
                           (trace w1 ++ [WriteFile OUTPUT kept]))
         end)
  ∧ (∀ w', main BeautifulSoup json_dump w = (Ok (), w') →
       ∃ dataset w1 evs,
         for_years BeautifulSoup URL_INDEX ∅ w = (Ok dataset, w1)
         ∧ trace w1 = trace w ++ evs
         ∧ Forall (λ ev, is_output_write ev = false) evs
         ∧ trace w' = trace w1 ++ [WriteFile OUTPUT (json_dump dataset)]
         ∧ fs w' !! OUTPUT = Some (json_dump dataset)).
Proof.
  split_and!.
  - intros pre year url post d1 w1 e w2 Hsplit Hpre Hfail.
    apply year_fails_raises in Hfail.
    assert (Hloop : for_years BeautifulSoup URL_INDEX ∅ w = (Raise e, w2)).
    { rewrite Hsplit, for_years_app, Hpre. simpl.
      unfold mbind, io_bind. by rewrite Hfail. }
    unfold main, mbind, io_bind. rewrite Hloop.
    by pose proof (for_years_extends _ _ _ _ _ _ Hloop) as [_ _ _ Hout Htr].
  - intros year url d1 w1 st body Hc Hh Hst. left.
    rewrite get_text_miss by done. cbv zeta.
    change (http (log _ w1)) with (http w1). rewrite Hh.
    by replace ((400 <=? st) && (st <? 600)) with true by lia.
  - intros dataset w1 Hloop. split_and!.
    + intros pre year url post Hsplit.
      rewrite Hsplit, for_years_app in Hloop.
      destruct (for_years BeautifulSoup pre ∅ w) as [[d1|e] wa]; [|done].
      simpl in Hloop. unfold mbind, io_bind in Hloop.
      destruct (process_year _ year url d1 wa) as [[d2|e] wb] eqn:Hyear;
        [|done].
      exists d1, wa, d2, wb. split; [done|]. by apply year_succeeds_returns.
    + by pose proof (for_years_extends _ _ _ _ _ _ Hloop) as [_ _ _ _ Htr].
    + unfold main, mbind, io_bind. rewrite Hloop.
      unfold dump, write_file.
      by destruct (disk w1 OUTPUT (json_dump dataset)).
  - intros w'. unfold main, mbind, io_bind.
    destruct (for_years BeautifulSoup URL_INDEX ∅ w) as [[dataset|e] w1]
      eqn:Hloop; [|done].
    pose proof (for_years_extends _ _ _ _ _ _ Hloop)
      as [_ _ _ _ (evs & Htr & Hq)].
    unfold dump, write_file.
    destruct (disk w1 OUTPUT (json_dump dataset)); [|done..].
    intros [= <-]. exists dataset, w1, evs. simpl.
    split_and!; [done..|]. apply lookup_insert_eq.
Qed.

Lemma output_written_once_after_all_years_witness :
  let w1 := downloading (py "2023")
              (py "https://www.mca.gov.cn/mzsj/xzqh/2023/202301xzqh.html")
              (log (Print (py "Processing 2023")) stale_world) in
  main (λ _, fixture_page) (λ _, []) stale_world = (Raise (HTTPError 404), w1)
  ∧ fs w1 !! OUTPUT = fs stale_world !! OUTPUT
  ∧ ∃ evs, trace w1 = trace stale_world ++ evs
           ∧ Forall (λ ev, is_output_write ev = false) evs.
Proof.
  intros w1. unfold w1.
  destruct (output_written_once_after_all_years (λ _, fixture_page) (λ _, [])
              stale_world) as (Hstop & Hstatus & _).
  apply (Hstop [] 2023
           (py "https://www.mca.gov.cn/mzsj/xzqh/2023/202301xzqh.html")
           (drop 1 URL_INDEX) ∅ stale_world (HTTPError 404)).
  - reflexivity.
  - reflexivity.
  - apply (Hstatus 2023
             (py "https://www.mca.gov.cn/mzsj/xzqh/2023/202301xzqh.html")
             ∅ stale_world 404 []).
    + vm_compute. reflexivity.
    + reflexivity.
    + lia.
Defined.

(** One uncached year answered with an error status: the run raises and
    the old output file is untouched. *)
Example http_error_leaves_output :
  ∀ json_dump,
    (main (λ _, fixture_page) json_dump stale_world).1 = Raise (HTTPError 404)
    ∧ fs (main (λ _, fixture_page) json_dump stale_world).2
      = fs stale_world.
Proof. intros json_dump. split; vm_compute; reflexivity. Qed.

(** Every year is served, but the dump stops at the first name: the run
    raises, and the output file of the earlier run is cut short. *)
Example dump_error_truncates_output :
  (main (λ _, fixture_page) (λ _, [Byte.x7b; Byte.x7d]) ascii_locale_world).1
    = Raise UnicodeEncodeError
  ∧ fs (main (λ _, fixture_page) (λ _, [Byte.x7b; Byte.x7d])
          ascii_locale_world).2 !! OUTPUT = Some [Byte.x7b].
Proof. split; vm_compute; reflexivity. Qed.

(** * Further properties *)

(** ** The fetcher *)

(** X1: once a fetch has returned a page, a second fetch of the same
    identifier (whatever the URL) is a cache hit: it returns the same text
    and changes nothing. *)
Theorem second_fetch_is_a_hit (name url url' : str) (w w' : world) (s : str) :
  get_text name url w = (Ok s, w') →
  get_text name url' w' = (Ok s, w').
Proof.
  intros Hrun. apply get_text_ok in Hrun as (data & Hdata & Hdec).
  by rewrite (get_text_hit name url' w' data Hdata), Hdec.
Qed.

Lemma second_fetch_is_a_hit_witness :
  get_text (py "2023") (py "http://other/")
    (get_text (py "2023") (py "http://example/") letter_world).2
  = (Ok (py "A"), (get_text (py "2023") (py "http://example/") letter_world).2).
Proof.
  apply (second_fetch_is_a_hit (py "2023") (py "http://example/")
           (py "http://other/") letter_world).
  vm_compute. reflexivity.
Defined.

(** X2: a fetch leaves the server as it is, changes no file other than the
    cache entry of its identifier, and never overwrites an entry that is
    already there. *)
Theorem fetch_touches_only_its_entry (name url : str) (w w' : world)
    (r : result str) :
  get_text name url w = (r, w') →
  http w' = http w
  ∧ (∀ p, p ≠ cache_path name → fs w' !! p = fs w !! p)
  ∧ (∀ data, fs w !! cache_path name = Some data → w' = w).
Proof.
  destruct (fs w !! cache_path name) as [data|] eqn:Hc.
  - rewrite (get_text_hit name url w data Hc). by intros [= _ <-].
  - rewrite (get_text_miss name url w Hc). cbv zeta.
    destruct (http w url) as [e|st body]; [by intros [= _ <-]|].
    destruct ((400 <=? st) && (st <? 600)); [by intros [= _ <-]|].
    destruct (disk w (cache_path name) body) as [|e|e kept];
      intros [= _ <-]; simpl; split_and!; try done;
      intros p Hp; by rewrite lookup_insert_ne.
Qed.

Lemma fetch_touches_only_its_entry_witness :
  let w' := (get_text (py "2023") (py "http://example/") letter_world).2 in
  http w' = http letter_world
  ∧ (∀ p, p ≠ cache_path (py "2023") → fs w' !! p = fs letter_world !! p)
  ∧ (∀ data, fs letter_world !! cache_path (py "2023") = Some data →
       w' = letter_world).
Proof.
  intros w'.
  apply (fetch_touches_only_its_entry (py "2023") (py "http://example/")
           letter_world w'
           (get_text (py "2023") (py "http://example/") letter_world).1).
  apply surjective_pairing.
Defined.

(** X3: on a cache miss, when [requests.get] raises, or answers with a
    status from 400 to 599, the fetch raises that error after its pause, its
    message and its call, and it writes no file: the identifier still has no
    cache entry, so the next fetch asks the server again. *)
Theorem failed_fetch_caches_nothing (name url : str) (w : world) (e : exn) :
  fs w !! cache_path name = None →
  (http w url = NoResponse e
   ∨ ∃ st body, http w url = Response st body ∧ 400 <= st < 600
                ∧ e = HTTPError st) →
  get_text name url w = (Raise e, downloading name url w)
  ∧ fs (downloading name url w) = fs w
  ∧ fs (downloading name url w) !! cache_path name = None.
Proof.
  intros Hc Hcause. rewrite (get_text_miss name url w Hc). cbv zeta.
  split_and!; [|done..].
  destruct Hcause as [->|(st & body & -> & Hst & ->)]; [done|].
  by replace ((400 <=? st) && (st <? 600)) with true by lia.
Qed.

Lemma failed_fetch_caches_nothing_witness :
  get_text (py "2023") (py "example.org")
    (World ∅ (λ _, NoResponse MissingSchema) (λ _ _, Written) [])
  = (Raise MissingSchema,
     downloading (py "2023") (py "example.org")
       (World ∅ (λ _, NoResponse MissingSchema) (λ _ _, Written) []))
  ∧ fs (downloading (py "2023") (py "example.org")
          (World ∅ (λ _, NoResponse MissingSchema) (λ _ _, Written) [])) = ∅
  ∧ fs (downloading (py "2023") (py "example.org")
          (World ∅ (λ _, NoResponse MissingSchema) (λ _ _, Written) []))
      !! cache_path (py "2023") = None.
Proof.
  apply (failed_fetch_caches_nothing (py "2023") (py "example.org")
           (World ∅ (λ _, NoResponse MissingSchema) (λ _ _, Written) [])
           MissingSchema).
  - reflexivity.
  - by left.
Defined.

Lemma emit_Ok c r s :
  emit c r = Ok s → ∃ s', r = Ok s' ∧ s = c :: s'.
Proof.
  unfold emit. destruct r as [s'|]; simpl; [|done].
  intros [= <-]. by exists s'.
Qed.

Lemma decode_strict_ignore_bounded n (bs : bytes) (s : str) :
  (length bs ≤ n)%nat → decode Strict bs = Ok s → decode Ignore bs = Ok s.
Proof.
  revert bs s. induction n as [|n IH]; intros bs s Hlen.
  { destruct bs; [done|simpl in Hlen; lia]. }
  destruct bs as [|b0 rest]; [done|].
  simpl in Hlen. rewrite !decode_cons. cbv zeta.
  assert (Hemit : ∀ c tl, (length tl ≤ n)%nat →
            emit c (decode Strict tl) = Ok s →
            emit c (decode Ignore tl) = Ok s).
  { intros c tl Htl (s' & Hs' & ->)%emit_Ok.
    by rewrite (IH tl s' Htl Hs'). }
  destruct (byte_val b0 <? 0x80); [apply Hemit; lia|].
  destruct rest as [|b1 rest1]; [done|]. simpl in Hlen.
  destruct (lead2 b0 && is_cont b1); [apply Hemit; lia|].
  destruct rest1 as [|b2 rest2]; [done|]. simpl in Hlen.
  destruct (lead3 b0 b1 && is_cont b2); [apply Hemit; lia|].
  destruct rest2 as [|b3 rest3]; [done|]. simpl in Hlen.
  destruct (lead4 b0 b1 && is_cont b2 && is_cont b3); [apply Hemit; lia|].
  done.
Qed.

(** X4: when the bytes of a cache entry are well-formed UTF-8, dropping
    undecodable bytes drops nothing: the fetcher returns exactly the text
    that a strict decoding of the entry gives. *)
Theorem well_formed_entry_read_in_full (name url : str) (w : world)
    (data : bytes) (s : str) :
  fs w !! cache_path name = Some data →
  decode Strict data = Ok s →
  get_text name url w = (Ok s, w).
Proof.
  intros Hc Hs. rewrite (get_text_hit name url w data Hc).
  by rewrite (decode_strict_ignore_bounded (length data) data s).
Qed.

Lemma well_formed_entry_read_in_full_witness :
  get_text (py "2023") (py "http://example/") dong_world
  = (Ok [0x4E1C], dong_world).
Proof.
  apply (well_formed_entry_read_in_full (py "2023") (py "http://example/")
           dong_world [Byte.xe4; Byte.xb8; Byte.x9c]).
  - vm_compute. reflexivity.
  - reflexivity.
Defined.

(** ** The extractor *)

Lemma collect_app a b m0 :
  collect (a ++ b) m0 = (m1 ← collect a m0; collect b m1).
Proof.
  revert m0. induction a as [|tr a IH]; intros m0; simpl; [done|].
  destruct (row_entry tr) as [entry|]; simpl; [apply IH | done].
Qed.

Lemma collect_other code rows m0 m :
  Forall (λ tr, yields code tr = false) rows →
  collect rows m0 = Ok m → m !! code = m0 !! code.
Proof.
  intros Hrows. revert m0.
  induction Hrows as [|tr rows Htr _ IH]; intros m0; simpl.
  - by intros [= <-].
  - unfold yields in Htr.
    destruct (row_entry tr) as [[[c n]|]|e]; simpl; [| |done].
    + intros Hrun. rewrite (IH _ Hrun).
      apply lookup_insert_ne. by apply bool_decide_eq_false in Htr.
    + apply IH.
Qed.

Lemma collect_last la r lb code name m0 m :
  row_entry r = Ok (Some (code, name)) →
  Forall (λ tr, yields code tr = false) lb →
  collect (la ++ r :: lb) m0 = Ok m → m !! code = Some name.
Proof.
  intros Hr Hlb. rewrite collect_app.
  destruct (collect la m0) as [m1|]; [|done]. simpl. rewrite Hr. simpl.
  intros Hrun. rewrite (collect_other code lb _ m Hlb Hrun).
  apply lookup_insert_eq.
Qed.

Lemma collect_lookup rows m code name :
  collect rows ∅ = Ok m →
  m !! code = Some name ↔
  ∃ la r lb, rows = la ++ r :: lb
             ∧ row_entry r = Ok (Some (code, name))
             ∧ Forall (λ tr, yields code tr = false) lb.
Proof.
  intros Hrun. split.
  - intros Hm.
    destruct (yields_split code rows) as [Hall|(la & r & lb & -> & Hr & Hlb)].
    + rewrite (collect_other code rows ∅ m Hall Hrun), lookup_empty in Hm.
      done.
    + apply yields_true in Hr as (n & Hn).
      rewrite (collect_last la r lb code n ∅ m Hn Hlb Hrun) in Hm.
      injection Hm as ->. by exists la, r, lb.
  - intros (la & r & lb & -> & Hr & Hlb). by eapply collect_last.
Qed.

Lemma for_rows_fresh year rows d d' :
  for_rows year rows (<[year := ∅]> d) = Ok d' →
  ∃ m, collect rows ∅ = Ok m ∧ d' = <[year := m]> d.
Proof.
  rewrite (for_rows_collect _ _ _ ∅) by apply lookup_insert_eq.
  destruct (collect rows ∅) as [m|]; [|done]. simpl.
  intros [= <-]. exists m. by rewrite insert_insert_eq.
Qed.

(** X5: when the rows of a page are all processed, the year's mapping is
    replaced by the page's own: it holds [name] under [code] exactly when
    the last row of the page that is recorded under [code] carries [name];
    the mappings of the other years are as before. *)
Theorem page_mapping_is_last_row_per_code (year : Z)
    (rows : list (list node)) (d d' : gmap Z (gmap str str)) :
  for_rows year rows (<[year := ∅]> d) = Ok d' →
  ∃ m, d' = <[year := m]> d
    ∧ ∀ code name,
        m !! code = Some name ↔
        ∃ la r lb, rows = la ++ r :: lb
                   ∧ row_entry r = Ok (Some (code, name))
                   ∧ Forall (λ tr, yields code tr = false) lb.
Proof.
  intros (m & Hcol & ->)%for_rows_fresh. exists m. split; [done|].
  intros code name. by apply collect_lookup.
Qed.

Lemma page_mapping_is_last_row_per_code_witness :
  ∃ m, (<[2023 := {[ py "110101" := s_dongchengqu ]}]> ∅
          : gmap Z (gmap str str)) = <[2023 := m]> ∅
    ∧ ∀ code name,
        m !! code = Some name ↔
        ∃ la r lb, table_rows fixture_page = la ++ r :: lb
                   ∧ row_entry r = Ok (Some (code, name))
                   ∧ Forall (λ tr, yields code tr = false) lb.
Proof.
  apply (page_mapping_is_last_row_per_code 2023 (table_rows fixture_page) ∅).
  vm_compute. reflexivity.
Defined.

Lemma drop_while_idem {A} (p : A → bool) (l : list A) :
  drop_while p (drop_while p l) = drop_while p l.
Proof.
  induction l as [|x l IH]; simpl; [done|].
  destruct (p x) eqn:Hx; [done|]. simpl. by rewrite Hx.
Qed.

Lemma lstrip_head (s : str) :
  lstrip s = [] ∨ ∃ c t, lstrip s = c :: t ∧ isspace c = false.
Proof.
  unfold lstrip. induction s as [|c s IH]; simpl; [by left|].
  destruct (isspace c) eqn:Hc; [done|]. right. by exists c, s.
Qed.

Lemma rstrip_idem (s : str) : rstrip (rstrip s) = rstrip s.
Proof.
  unfold rstrip. by rewrite reverse_involutive, drop_while_idem.
Qed.

Lemma strip_idem (s : str) : strip (strip s) = strip s.
Proof.
  unfold strip.
  destruct (lstrip_head s) as [->|(c & t & -> & Hc)]; [reflexivity|].
  destruct (rstrip_prefix [c] t) as [t' Ht'].
  { by constructor. }
  simpl in Ht'. rewrite Ht'. unfold lstrip. simpl. rewrite Hc.
  rewrite <- Ht'. apply rstrip_idem.
Qed.

(** X6: what is stored is trimmed: no code and no name of a page's mapping
    begins or ends with white space (stripping it again changes nothing). *)
Theorem entries_are_trimmed (year : Z) (rows : list (list node))
    (d d' : gmap Z (gmap str str)) (m : gmap str str) (code name : str) :
  for_rows year rows (<[year := ∅]> d) = Ok d' →
  d' !! year = Some m →
  m !! code = Some name →
  strip code = code ∧ strip name = name.
Proof.
  intros (m' & Hcol & ->)%for_rows_fresh. rewrite lookup_insert_eq.
  intros [= ->] Hm.
  apply (collect_lookup rows m code name Hcol) in Hm
    as (la & r & lb & _ & Hr & _).
  destruct r as [|td0 rest]; [done|]. rewrite row_entry_cons in Hr.
  destruct (re_match_d6 (text td0)); [|done].
  destruct rest as [|td1 rest]; [done|].
  injection Hr as <- <-. by rewrite !strip_idem.
Qed.

Lemma entries_are_trimmed_witness :
  strip (py "110101") = py "110101" ∧ strip s_dongchengqu = s_dongchengqu.
Proof.
  apply (entries_are_trimmed 2023
           [[td (32 :: py "110101" ++ [32]); td s_dongchengqu];
            [td (py "110101" ++ [10]); td (9 :: s_dongchengqu)]]
           ∅ (<[2023 := {[ py "110101" := s_dongchengqu ]}]> ∅)
           {[ py "110101" := s_dongchengqu ]}).
  - vm_compute. reflexivity.
  - vm_compute. reflexivity.
  - vm_compute. reflexivity.
Defined.

(** ** The driver *)

Lemma process_year_hit BeautifulSoup year url d w data :
  fs w !! cache_path (str_of_int year) = Some data →
  process_year BeautifulSoup year url d w =
  (html ← decode Ignore data;
   for_rows year (table_rows (BeautifulSoup html)) (<[year := ∅]> d),
   log (Print (py "Processing " ++ str_of_int year)) w).
Proof.
  intros Hc. unfold process_year, mbind at 1 2, io_bind, print.
  rewrite (get_text_hit _ url (log _ w) data Hc).
  by destruct (decode Ignore data).
Qed.

Lemma for_years_hit BeautifulSoup items d w r w' :
  Forall (λ item, is_Some (fs w !! cache_path (str_of_int item.1))) items →
  for_years BeautifulSoup items d w = (r, w') →
  fs w' = fs w ∧ http w' = http w ∧ disk w' = disk w
  ∧ ∃ evs, trace w' = trace w ++ evs ∧ Forall (λ e, is_print e = true) evs.
Proof.
  intros Hall. revert d w Hall.
  induction items as [|[year url] items IH]; intros d w Hall; simpl.
  - intros [= _ <-]. split_and!; [done..|]. exists []. by rewrite app_nil_r.
  - apply Forall_cons in Hall as [[data Hdata] Hall]. simpl in Hdata.
    unfold mbind, io_bind.
    rewrite (process_year_hit _ year url d w data Hdata).
    set (w1 := log _ w).
    destruct (_ ≫= _) as [d1|e].
    + intros Hrest.
      destruct (IH d1 w1 Hall Hrest) as (Hfs & Hh & Hd & evs & Ht & He).
      split_and!; [done..|].
      exists (Print (py "Processing " ++ str_of_int year) :: evs).
      rewrite Ht. unfold w1. simpl. rewrite <- app_assoc. split; [done|].
      by constructor.
    + intros [= _ <-]. split_and!; [done..|]. eexists. split; [done|].
      by constructor.
Qed.

(** X7: when every year of the table has its cache entry, a run sends no
    request and does not pause; it leaves the server and every file other
    than the output file as they are. *)
Theorem cached_run_is_offline (BeautifulSoup : str → node)
    (json_dump : gmap Z (gmap str str) → bytes) (w w' : world)
    (r : result ()) :
  Forall (λ item, is_Some (fs w !! cache_path (str_of_int item.1)))
    URL_INDEX →
  main BeautifulSoup json_dump w = (r, w') →
  http w' = http w
  ∧ (∀ p, p ≠ OUTPUT → fs w' !! p = fs w !! p)
  ∧ ∃ evs, trace w' = trace w ++ evs
           ∧ Forall (λ e, is_get e = false ∧ is_sleep e = false) evs.
Proof.
  intros Hall. unfold main, mbind, io_bind.
  destruct (for_years BeautifulSoup URL_INDEX ∅ w) as [[ds|e] w1] eqn:Hrun;
    destruct (for_years_hit _ _ _ _ _ _ Hall Hrun)
      as (Hfs & Hh & _ & evs & Ht & He);
    assert (Hquiet : Forall (λ e, is_get e = false ∧ is_sleep e = false) evs)
      by (eapply Forall_impl; [exact He|]; by intros []).
  - unfold dump, write_file.
    destruct (disk w1 OUTPUT (json_dump ds)) as [|e|e kept];
      intros [= _ <-]; simpl; split_and!; try done.
    + intros p Hp. rewrite lookup_insert_ne by done. by rewrite Hfs.
    + exists (evs ++ [WriteFile OUTPUT (json_dump ds)]).
      rewrite Ht, <- app_assoc. split; [done|].
      apply Forall_app. split; [done|]. by constructor.
    + intros p _. by rewrite Hfs.
    + by exists evs.
    + intros p Hp. rewrite lookup_insert_ne by done. by rewrite Hfs.
    + exists (evs ++ [WriteFile OUTPUT kept]).
      rewrite Ht, <- app_assoc. split; [done|].
      apply Forall_app. split; [done|]. by constructor.
  - intros [= _ <-]. split_and!; [done| |by exists evs].
    intros p _. by rewrite Hfs.
Qed.

Lemma pair_eta_eq {A B} (p : A * B) (a : A) : p.1 = a → p = (a, p.2).
Proof. destruct p as [a' b]. simpl. by intros ->. Qed.

Lemma cached_run_is_offline_witness :
  let w' := (main (λ _, fixture_page) (λ _, []) cached_world).2 in
  http w' = http cached_world
  ∧ (∀ p, p ≠ OUTPUT → fs w' !! p = fs cached_world !! p)
  ∧ ∃ evs, trace w' = trace cached_world ++ evs
           ∧ Forall (λ e, is_get e = false ∧ is_sleep e = false) evs.
Proof.
  intros w'.
  apply (cached_run_is_offline (λ _, fixture_page) (λ _, []) cached_world w'
           (main (λ _, fixture_page) (λ _, []) cached_world).1).
  - apply (bool_decide_unpack _). vm_compute. exact I.
  - apply surjective_pairing.
Defined.

(** X9: when the loop over a table of years returns, the keys of the
    dataset are the keys it started with and the years of the table, and
    nothing else. *)
Theorem dataset_keys_are_the_years (BeautifulSoup : str → node)
    (items : list (Z * str)) (d d' : gmap Z (gmap str str)) (w w' : world) :
  for_years BeautifulSoup items d w = (Ok d', w') →
  ∀ year, is_Some (d' !! year) ↔ year ∈ items.*1 ∨ is_Some (d !! year).
Proof.
  revert d w. induction items as [|[y u] items IH]; intros d w; simpl.
  - intros [= <- _] year. rewrite elem_of_nil. tauto.
  - unfold mbind, io_bind.
    destruct (process_year _ y u d w) as [[d1|e] w1] eqn:H1; [|done].
    intros Hrest year. rewrite (IH _ _ Hrest year).
    apply process_year_run in H1 as [_ H1].
    destruct (H1 d1 eq_refl) as (m & _ & _ & -> & _).
    rewrite elem_of_cons. destruct (decide (year = y)) as [->|Hne].
    + rewrite lookup_insert_eq. split; [by left; left|].
      intros _. right. by eexists.
    + rewrite lookup_insert_ne by done. tauto.
Qed.

Lemma dataset_keys_are_the_years_witness :
  is_Some (value_or ∅
             (for_years (λ _, fixture_page)
                [(1981, py "http://a/"); (1980, py "http://b/")]
                {[ 1970 := ∅ ]} letter_world).1 !! 1980)
  ↔ 1980 ∈ [(1981, py "http://a/"); (1980, py "http://b/")].*1
    ∨ is_Some (({[ 1970 := ∅ ]} : gmap Z (gmap str str)) !! 1980).
Proof.
  apply (dataset_keys_are_the_years (λ _, fixture_page)
           [(1981, py "http://a/"); (1980, py "http://b/")] {[ 1970 := ∅ ]}
           _ letter_world
           (for_years (λ _, fixture_page)
              [(1981, py "http://a/"); (1980, py "http://b/")]
              {[ 1970 := ∅ ]} letter_world).2).
  apply pair_eta_eq. vm_compute. reflexivity.
Defined.

Lemma for_years_cached BeautifulSoup items d w :
  (∀ year url, (year, url) ∈ items →
     ∃ data html m,
       fs w !! cache_path (str_of_int year) = Some data
       ∧ decode Ignore data = Ok html
       ∧ collect (table_rows (BeautifulSoup html)) ∅ = Ok m) →
  ∃ d' w',
    for_years BeautifulSoup items d w = (Ok d', w')
    ∧ (∀ year, year ∉ items.*1 → d' !! year = d !! year)
    ∧ (∀ year url data html m,
         (year, url) ∈ items →
         fs w !! cache_path (str_of_int year) = Some data →
         decode Ignore data = Ok html →
         collect (table_rows (BeautifulSoup html)) ∅ = Ok m →
         d' !! year = Some m).
Proof.
  revert d w. induction items as [|[y u] items IH]; intros d w Hall; simpl.
  - exists d, w. split_and!; [done..|]. by intros ????? ?%elem_of_nil.
  - destruct (Hall y u) as (data & html & m & Hdata & Hdec & Hcol);
      [by left|].
    unfold mbind, io_bind.
    rewrite (process_year_hit _ y u d w data Hdata), Hdec. simpl.
    rewrite (for_rows_collect _ _ _ ∅) by apply lookup_insert_eq.
    rewrite Hcol. simpl. rewrite insert_insert_eq.
    set (w1 := log _ w).
    destruct (IH (<[y := m]> d) w1) as (d' & w' & Hrun & Hother & Hitems).
    { intros year url Hin. apply (Hall year url). by right. }
    exists d', w'. split_and!; [done| |].
    + intros year [Hne Hy]%not_elem_of_cons.
      rewrite (Hother year Hy). by rewrite lookup_insert_ne.
    + intros year url data' html' m' Hin Hdata' Hdec' Hcol'.
      destruct (decide (year ∈ items.*1)) as [Hyear|Hyear].
      * apply list_elem_of_fmap in Hyear as ([y' u'] & -> & Hin').
        by apply (Hitems y' u' data' html' m').
      * apply elem_of_cons in Hin as [[= -> ->]|Hin].
        -- rewrite (Hother y Hyear), lookup_insert_eq. congruence.
        -- destruct Hyear. apply list_elem_of_fmap. by exists (year, url).
Qed.

(** X8: a run that has succeeded can be repeated: the second run succeeds
    too, sends no request, and leaves every file, the output file included,
    with the content the first run gave it. *)
Theorem rerun_reproduces_output (BeautifulSoup : str → node)
    (json_dump : gmap Z (gmap str str) → bytes) (w w1 : world) :
  main BeautifulSoup json_dump w = (Ok (), w1) →
  ∃ w2, main BeautifulSoup json_dump w1 = (Ok (), w2)
        ∧ fs w2 = fs w1
        ∧ ∃ evs, trace w2 = trace w1 ++ evs
                 ∧ Forall (λ e, is_get e = false ∧ is_sleep e = false) evs.
Proof.
  unfold main, mbind, io_bind.
  destruct (for_years BeautifulSoup URL_INDEX ∅ w) as [[ds|e] wa] eqn:Hrun;
    [|done].
  unfold dump at 1, write_file.
  destruct (disk wa OUTPUT (json_dump ds)) eqn:Hdisk; [|done..].
  intros [= <-].
  destruct (for_years_ok _ _ _ _ _ _ URL_INDEX_years_distinct Hrun)
    as [Hother Hitems].
  set (w1 := World _ _ _ _).
  assert (Hcp : ∀ name, fs w1 !! cache_path name = fs wa !! cache_path name).
  { intros name. unfold w1. simpl. apply lookup_insert_ne.
    intros H. by apply (cache_path_not_output name). }
  destruct (for_years_cached BeautifulSoup URL_INDEX ∅ w1)
    as (d2 & w2 & Hrun2 & Hother2 & Hitems2).
  { intros year url Hin.
    destruct (Hitems year url Hin) as (m & data & html & _ & Hd & Hdec & Hcol).
    exists data, html, m. by rewrite Hcp. }
  assert (Hsame : d2 = ds).
  { apply map_eq. intros year.
    destruct (decide (year ∈ URL_INDEX.*1)) as [Hyear|Hyear].
    - apply list_elem_of_fmap in Hyear as ([y u] & -> & Hin). simpl.
      destruct (Hitems y u Hin) as (m & data & html & -> & Hd & Hdec & Hcol).
      apply (Hitems2 y u data html m); [done| |done..]. by rewrite Hcp.
    - by rewrite (Hother year Hyear), (Hother2 year Hyear). }
  assert (Hall : Forall (λ item,
            is_Some (fs w1 !! cache_path (str_of_int item.1))) URL_INDEX).
  { apply Forall_forall. intros [y u] Hin.
    destruct (Hitems y u Hin) as (m & data & html & _ & Hd & _).
    simpl. rewrite Hcp. by eexists. }
  destruct (for_years_hit _ _ _ _ _ _ Hall Hrun2)
    as (Hfs & _ & Hd & evs & Ht & He).
  rewrite Hrun2. unfold dump, write_file.
  rewrite Hd, Hsame. change (disk w1) with (disk wa). rewrite Hdisk.
  eexists. split; [reflexivity|]. simpl. split.
  - rewrite Hfs. unfold w1. simpl. apply insert_insert_eq.
  - exists (evs ++ [WriteFile OUTPUT (json_dump ds)]).
    rewrite Ht, <- app_assoc. split; [done|].
    apply Forall_app. split; [|by constructor].
    eapply Forall_impl; [exact He|]. by intros [].
Qed.

Lemma rerun_reproduces_output_witness :
  let w1 := (main (λ _, fixture_page) (λ _, []) cached_world).2 in
  ∃ w2, main (λ _, fixture_page) (λ _, []) w1 = (Ok (), w2)
        ∧ fs w2 = fs w1
        ∧ ∃ evs, trace w2 = trace w1 ++ evs
                 ∧ Forall (λ e, is_get e = false ∧ is_sleep e = false) evs.
Proof.
  intros w1. unfold w1.
  apply (rerun_reproduces_output (λ _, fixture_page) (λ _, []) cached_world).
  apply (pair_eta_eq (main (λ _, fixture_page) (λ _, []) cached_world) (Ok ())).
  vm_compute. reflexivity.
Defined.

Lemma polite_nil urls n : polite urls n [].
Proof. split_and!; [done|simpl; lia|done]. Qed.

Lemma polite_app urls1 urls2 n1 n2 evs1 evs2 :
  polite urls1 n1 evs1 → polite urls2 n2 evs2 →
  polite (urls1 ++ urls2) (n1 + n2) (evs1 ++ evs2).
Proof.
  intros (Hc1 & Hn1 & Hf1) (Hc2 & Hn2 & Hf2). unfold polite.
  rewrite !List.filter_app, !length_app. split_and!; [lia..|].
  apply Forall_app. split.
  - eapply Forall_impl; [exact Hf1|]. intros e [Hg Hs]. split; [|done].
    intros u Hu. apply elem_of_app. left. by apply Hg.
  - eapply Forall_impl; [exact Hf2|]. intros e [Hg Hs]. split; [|done].
    intros u Hu. apply elem_of_app. right. by apply Hg.
Qed.

Lemma polite_print urls n msg : polite urls n [Print msg].
Proof.
  split_and!; [done|simpl; lia|]. constructor; [|done]. by split.
Qed.

Lemma downloading_trace name url w :
  trace (downloading name url w) = trace w ++
    [Sleep 1; Print (py "Downloading " ++ name ++ py ": " ++ url); Get url].
Proof. unfold downloading, log. simpl. by rewrite <- !app_assoc. Qed.

Lemma polite_download msg url : polite [url] 1 [Sleep 1; Print msg; Get url].
Proof.
  split_and!; [done|simpl; lia|].
  apply Forall_cons. split; [split; [by intros ? [=]|by intros ? [= <-]]|].
  apply Forall_cons. split; [split; by intros ? [=]|].
  apply Forall_cons. split; [|by apply Forall_nil].
  split; [|by intros ? [=]].
  intros ? [= <-]. by apply list_elem_of_singleton.
Qed.

Lemma polite_write urls n p data : polite urls n [WriteFile p data].
Proof.
  split_and!; [done|simpl; lia|]. constructor; [|done]. by split.
Qed.

Lemma get_text_polite name url w r w' :
  get_text name url w = (r, w') →
  ∃ evs, trace w' = trace w ++ evs ∧ polite [url] 1 evs.
Proof.
  destruct (fs w !! cache_path name) as [data|] eqn:Hc.
  - rewrite (get_text_hit name url w data Hc). intros [= _ <-].
    exists []. rewrite app_nil_r. split; [done|]. apply polite_nil.
  - rewrite (get_text_miss name url w Hc). cbv zeta.
    pose proof (downloading_trace name url w) as Hdl.
    assert (Hput : ∀ kept,
              ∃ evs, trace (downloading name url w)
                       ++ [WriteFile (cache_path name) kept]
                     = trace w ++ evs ∧ polite [url] 1 evs).
    { intros kept. rewrite Hdl, <- app_assoc. eexists. split; [done|].
      apply (polite_app [url] [] 1 0 [Sleep 1; Print _; Get url]
               [WriteFile (cache_path name) kept]).
      - apply polite_download.
      - apply polite_write. }
    assert (Hstop : ∃ evs, trace (downloading name url w) = trace w ++ evs
                           ∧ polite [url] 1 evs).
    { eexists. split; [exact Hdl|]. apply polite_download. }
    destruct (http w url) as [e|st body]; [by intros [= _ <-]|].
    destruct ((400 <=? st) && (st <? 600)); [by intros [= _ <-]|].
    destruct (disk w (cache_path name) body) as [|e|e kept];
      intros [= _ <-]; [apply Hput|done|apply Hput].
Qed.

Lemma process_year_polite BeautifulSoup year url d w r w' :
  process_year BeautifulSoup year url d w = (r, w') →
  ∃ evs, trace w' = trace w ++ evs ∧ polite [url] 1 evs.
Proof.
  unfold process_year, mbind, io_bind, print.
  destruct (get_text _ url _) as [r1 w1] eqn:Hget.
  apply get_text_polite in Hget as (evs & Ht & Hp). simpl in Ht.
  assert (Hall : trace w1 = trace w ++
            Print (py "Processing " ++ str_of_int year) :: evs
          ∧ polite [url] 1
              (Print (py "Processing " ++ str_of_int year) :: evs)).
  { rewrite Ht, <- app_assoc. split; [done|].
    apply (polite_app [] [url] 0 1 [Print _] evs); [apply polite_print|done]. }
  destruct r1 as [html|e]; unfold lift; intros [= _ <-]; by eexists.
Qed.

(** X10: in a run over a table of years there are as many requests as
    one-second pauses, at most one of each per year, and every request goes
    to a URL of the table. *)
Theorem one_paused_request_per_year (BeautifulSoup : str → node)
    (items : list (Z * str)) (d : gmap Z (gmap str str)) (w w' : world)
    (r : result (gmap Z (gmap str str))) :
  for_years BeautifulSoup items d w = (r, w') →
  ∃ evs, trace w' = trace w ++ evs
    ∧ length (List.filter is_get evs) = length (List.filter is_sleep evs)
    ∧ (length (List.filter is_get evs) ≤ length items)%nat
    ∧ Forall (λ e, (∀ u, e = Get u → u ∈ items.*2)
                   ∧ (∀ secs, e = Sleep secs → secs = 1)) evs.
Proof.
  change (for_years BeautifulSoup items d w = (r, w') →
          ∃ evs, trace w' = trace w ++ evs
                 ∧ polite items.*2 (length items) evs).
  revert d w. induction items as [|[y u] items IH]; intros d w; simpl.
  - intros [= _ <-]. exists []. rewrite app_nil_r. split; [done|].
    apply polite_nil.
  - unfold mbind, io_bind.
    destruct (process_year _ y u d w) as [[d1|e] w1] eqn:H1;
      apply process_year_polite in H1 as (evs1 & Ht1 & Hp1).
    + intros (evs2 & Ht2 & Hp2)%IH. exists (evs1 ++ evs2).
      rewrite Ht2, Ht1, <- app_assoc. split; [done|].
      apply (polite_app [u] items.*2 1 (length items) evs1 evs2 Hp1 Hp2).
    + intros [= _ <-]. exists (evs1 ++ []). rewrite app_nil_r.
      split; [done|]. rewrite <- (app_nil_r evs1).
      apply (polite_app [u] items.*2 1 (length items) evs1 [] Hp1).
      apply polite_nil.
Qed.

Lemma one_paused_request_per_year_witness :
  let items := [(1981, py "http://a/"); (1980, py "http://b/")] in
  let w' := (for_years (λ _, fixture_page) items ∅ letter_world).2 in
  ∃ evs, trace w' = trace letter_world ++ evs
    ∧ length (List.filter is_get evs) = length (List.filter is_sleep evs)
    ∧ (length (List.filter is_get evs) ≤ length items)%nat
    ∧ Forall (λ e, (∀ u, e = Get u → u ∈ items.*2)
                   ∧ (∀ secs, e = Sleep secs → secs = 1)) evs.
Proof.
  intros items w'.
  apply (one_paused_request_per_year (λ _, fixture_page) items ∅ letter_world
           w' (for_years (λ _, fixture_page) items ∅ letter_world).1).
  apply surjective_pairing.
Defined.

Lemma get_text_new_file name url w r w' p :
  get_text name url w = (r, w') →
  fs w' !! p ≠ fs w !! p → p = cache_path name.
Proof.
  destruct (fs w !! cache_path name) as [data|] eqn:Hc.
  - rewrite (get_text_hit name url w data Hc). by intros [= _ <-].
  - rewrite (get_text_miss name url w Hc). cbv zeta.
    destruct (http w url) as [e|st body]; [by intros [= _ <-]|].
    destruct ((400 <=? st) && (st <? 600)); [by intros [= _ <-]|].
    destruct (disk w (cache_path name) body) as [|e|e kept];
      intros [= _ <-]; simpl; intros Hp; try done;
      (destruct (decide (p = cache_path name)) as [->|Hne]; [done|];
       by rewrite lookup_insert_ne in Hp).
Qed.

Lemma process_year_new_file BeautifulSoup year url d w r w' p :
  process_year BeautifulSoup year url d w = (r, w') →
  fs w' !! p ≠ fs w !! p → p = cache_path (str_of_int year).
Proof.
  unfold process_year, mbind, io_bind, print.
  destruct (get_text _ url _) as [r1 w1] eqn:Hget.
  intros Hrun Hp. apply (get_text_new_file _ _ _ _ _ p Hget).
  destruct r1; unfold lift in Hrun; by injection Hrun as _ <-.
Qed.

(** X11: the loop over the years never removes or alters a file that is
    there; a file that it creates is the cache entry of a year of the
    table. *)
Theorem run_creates_only_cache_entries (BeautifulSoup : str → node)
    (items : list (Z * str)) (d : gmap Z (gmap str str)) (w w' : world)
    (r : result (gmap Z (gmap str str))) :
  for_years BeautifulSoup items d w = (r, w') →
  (∀ p data, fs w !! p = Some data → fs w' !! p = Some data)
  ∧ ∀ p, fs w !! p = None → is_Some (fs w' !! p) →
      ∃ year url, (year, url) ∈ items ∧ p = cache_path (str_of_int year).
Proof.
  intros Hrun. split.
  { intros p data Hp. apply for_years_extends in Hrun as [_ _ Hsub _ _].
    by eapply lookup_weaken. }
  revert d w Hrun. induction items as [|[y u] items IH]; intros d w; simpl.
  - intros [= _ <-] p Hp [? Hs]. congruence.
  - unfold mbind, io_bind.
    destruct (process_year _ y u d w) as [[d1|e] w1] eqn:H1.
    + intros Hrest p Hp Hs.
      destruct (fs w1 !! p) as [data|] eqn:H1p.
      * exists y, u. split; [by left|].
        apply (process_year_new_file _ _ _ _ _ _ _ p H1). congruence.
      * destruct (IH _ _ Hrest p H1p Hs) as (year & url & Hin & ->).
        exists year, url. split; [by right|done].
    + intros [= _ <-] p Hp [data Hs]. exists y, u. split; [by left|].
      apply (process_year_new_file _ _ _ _ _ _ _ p H1). congruence.
Qed.

Lemma run_creates_only_cache_entries_witness :
  let items := [(1981, py "http://a/"); (1980, py "http://b/")] in
  let w' := (for_years (λ _, fixture_page) items ∅ dong_world).2 in
  (∀ p data, fs dong_world !! p = Some data → fs w' !! p = Some data)
  ∧ ∀ p, fs dong_world !! p = None → is_Some (fs w' !! p) →
      ∃ year url, (year, url) ∈ items ∧ p = cache_path (str_of_int year).
Proof.
  intros items w'.
  apply (run_creates_only_cache_entries (λ _, fixture_page) items ∅
           dong_world w'
           (for_years (λ _, fixture_page) items ∅ dong_world).1).
  apply surjective_pairing.
Defined.

Lemma str_of_int_head (n : Z) :
  head (str_of_int n ++ py ".bin") ≠ Some 0x2F.
Proof.
  unfold str_of_int, NilZero.string_of_int.
  destruct (Z.to_int n) as [u|u]; [|by vm_compute].
  unfold NilZero.string_of_uint. destruct u; by vm_compute.
Qed.

(** X13: the cache entry of a year is the file [data/url_cache/<year>.bin],
    with the year in decimal. *)
Theorem year_cache_path (year : Z) :
  cache_path (str_of_int year)
  = py "data/url_cache/" ++ str_of_int year ++ py ".bin".
Proof.
  unfold cache_path, joinpath.
  rewrite bool_decide_eq_false_2 by apply str_of_int_head.
  reflexivity.
Qed.
